(** * The unpooled radon model notebook (05-unpooled_model.ipynb)

    The notebook is a straight-line Python program: it imports its libraries
    and the [clean_data] module, builds the text of a Stan model and a data
    dictionary, calls [pystan.stan] once, indexes the returned fit, summarises
    the extracted array per county and draws one figure.

    The embedding follows the cells.  Everything that leaves the notebook (the
    imports, the sampler, the fit object, the display hook and matplotlib) is
    an external call answered by an environment; every such call is logged
    with its outcome.  The Python objects the notebook shares with
    [clean_data] live in a heap, and the module's attributes are bindings to
    heap locations.  The numpy and pandas operations the notebook applies to
    its own values are functions over lists. *)

From stdpp Require Import gmap strings list fin_maps sorting pretty.

(** ** Numbers *)

(** The arrays hold float64 values.  The notebook only combines them with
    the arithmetic of numpy, so the element type is kept abstract: the
    operations are those numpy applies elementwise. *)
Class Float64 (F : Type) := {
  f_of_Z : Z → F;
  f_add : F → F → F;
  f_sub : F → F → F;
  f_mul : F → F → F;
  f_div : F → F → F;
  f_sqrt : F → F;
  f_leb : F → F → bool;
  f_isnan : F → bool
}.

(** What sorting needs of the comparison of float64: it is transitive, and
    it is total on the values that are numbers (a NaN compares false with
    everything). *)
Class Float64Order (F : Type) `{Float64 F} := {
  f_leb_total : ∀ x y : F,
    f_isnan x = false → f_isnan y = false → f_leb x y = true ∨ f_leb y x = true;
  f_leb_trans : ∀ x y z : F, f_leb x y = true → f_leb y z = true → f_leb x z = true
}.

Definition f_le `{Float64 F} (x y : F) : Prop := f_leb x y = true.

(** The order of [sort_values]: ascending, with the NaNs last
    ([na_position='last']). *)
Definition f_le_nan_last `{Float64 F} (x y : F) : Prop :=
  f_isnan y || (negb (f_isnan x) && f_leb x y) = true.

(** A value that is a number. *)
Definition is_number `{Float64 F} (x : F) : Prop := f_isnan x = false.

Global Instance is_number_dec `{Float64 F} (x : F) : Decision (is_number x).
Proof. unfold is_number. apply _. Defined.

(** int64 arithmetic of numpy wraps around. *)
Definition wrap64 (z : Z) : Z := ((z + 2 ^ 63) `mod` 2 ^ 64 - 2 ^ 63)%Z.

(** ** Python values of the notebook *)

(** A raised exception: its class name and its message. *)
Inductive Exn := PyExn (type msg : string).

Definition loc := positive.

(** A value of the data dictionary: a Python int or a reference to an array. *)
Inductive DVal := DInt (n : Z) | DRef (l : loc).

(** A keyword argument of [pystan.stan]. *)
Inductive Arg := AStr (s : string) | ADict (d : gmap string DVal) | AInt (n : Z).

(** ** numpy arrays and pandas series *)

Section Model.
Context {F : Type} `{Float64 F}.

(** One-dimensional arrays in the heap. *)
Inductive Obj :=
| IntArray (xs : list Z)
| FloatArray (xs : list F)
| StrArray (xs : list string).

(** A two-dimensional ndarray: [unpooled_fit['a']] has one row per draw and
    one column per county. *)
Record ndarray2 := mk_ndarray2 { ncols : nat; rows : list (list F) }.

Definition nrows (a : ndarray2) : nat := length (rows a).

(** The shape invariant of an ndarray. *)
Definition rectangular (a : ndarray2) : Prop :=
  Forall (λ r, length r = ncols a) (rows a).

(** A pandas Series with string labels: its entries in order, each a label
    and a value. *)
Record Series := mk_Series { s_items : list (string * F) }.

Definition s_index (s : Series) : list string := (s_items s).*1.

Definition s_values (s : Series) : list F := (s_items s).*2.

(** [len(s)] *)
Definition s_len (s : Series) : nat := length (s_items s).

(** The attributes of [clean_data] the notebook uses, as the module's code
    leaves them.  The module itself is not part of the notebook: what it
    holds is whatever the import answers. *)
Record CleanData := mk_CleanData {
  v_log_radon : list F;
  v_county : list Z;
  v_floor_measure : list F;
  v_mn_counties : list string
}.

Definition np_zeros (n : nat) : list F := replicate n (f_of_Z 0).

(** [add.reduce] along axis 0: the rows are added one after the other to
    the identity. *)
Definition sum0 (c : nat) (rs : list (list F)) : list F :=
  fold_left (zip_with f_add) rs (np_zeros c).

(** [a.mean(0)]: the sum along axis 0 divided by the number of rows. *)
Definition mean0 (a : ndarray2) : list F :=
  let rcount := f_of_Z (Z.of_nat (nrows a)) in
  (λ s, f_div s rcount) <$> sum0 (ncols a) (rows a).

(** [a.std(0)] with the default [ddof=0]: the deviations from the mean are
    squared, averaged along axis 0, and the square root is taken. *)
Definition std0 (a : ndarray2) : list F :=
  let arrmean := mean0 a in
  let x := (λ r, zip_with f_sub r arrmean) <$> rows a in
  let x2 := (λ r, (λ v, f_mul v v) <$> r) <$> x in
  let rcount := f_of_Z (Z.of_nat (nrows a - 0)) in
  f_sqrt <$> ((λ s, f_div s rcount) <$> sum0 (ncols a) x2).

(** Column [j] of an array, top to bottom. *)
Definition column (j : nat) (a : ndarray2) : list F :=
  omap (λ r, r !! j) (rows a).

(** The sum of a sequence, accumulated from the left from zero. *)
Definition fsum (xs : list F) : F := fold_left f_add xs (f_of_Z 0).

(** The arithmetic mean and the standard deviation of a sequence of [n]
    values, as the text books define them: what the summaries of the
    notebook are compared with. *)
Definition mean_of (n : nat) (xs : list F) : F :=
  f_div (fsum xs) (f_of_Z (Z.of_nat n)).

Definition std_of (n : nat) (xs : list F) : F :=
  let m := mean_of n xs in
  f_sqrt (f_div (fsum ((λ v, f_mul (f_sub v m) (f_sub v m)) <$> xs))
                (f_of_Z (Z.of_nat n))).

(** The error of pandas for data and an index of different lengths; the
    message names both. *)
Definition length_mismatch (nvalues nindex : nat) : Exn :=
  PyExn "ValueError"
    ("Length of values (" +:+ pretty nvalues +:+
     ") does not match length of index (" +:+ pretty nindex +:+ ")").

(** [pd.Series(data, index=index)]: entry [j] pairs label [j] with value
    [j]; the lengths have to agree. *)
Definition pd_Series (data : list F) (index : list string) : Exn + Series :=
  if decide (length data = length index)
  then inr (mk_Series (zip index data))
  else inl (length_mismatch (length data) (length index)).

(** [s.head()]: the first five entries. *)
Definition head (s : Series) : Series := mk_Series (take 5 (s_items s)).

(** The order on entries used by [sort_values]: by value, ascending, NaNs
    last. *)
Definition by_value (p q : string * F) : Prop := f_le_nan_last p.2 q.2.

Global Instance by_value_dec p q : Decision (by_value p q).
Proof. unfold by_value, f_le_nan_last. apply _. Defined.

(** An entry put into a sorted sequence, before the first entry it may
    precede. *)
Fixpoint insert_by_value (p : string * F) (l : list (string * F))
    : list (string * F) :=
  match l with
  | [] => [p]
  | q :: l' =>
      if decide (by_value p q) then p :: q :: l' else q :: insert_by_value p l'
  end.

(** [s.sort_values()]: the entries reordered by ascending value, the NaNs
    last, each keeping its label.  Entries of equal value, and the NaNs, keep
    the order they had: this is what the sort of numpy gives on short arrays.
    On long arrays the default sort of numpy is not stable and the order of
    equal values depends on its build; the properties of a run are therefore
    stated for the order a run took, whichever it is among equal values. *)
Definition sort_values (s : Series) : Series :=
  mk_Series (foldr insert_by_value [] (s_items s)).

(** [s[labels]] for an index of labels: for every requested label, in
    order, the entries of [s] that carry it; a label that [s] does not have
    is a KeyError.  (With a label that occurs twice in [s], the result is
    longer than [labels]; older releases of pandas refuse such an index.) *)
Definition lookup_label (s : Series) (l : string) : list (string * F) :=
  filter (λ p, p.1 = l) (s_items s).

Definition getitem_labels (s : Series) (labels : list string) : Exn + Series :=
  if decide (Forall (λ l, l ∈ s_index s) labels)
  then inr (mk_Series (labels ≫= lookup_label s))
  else inl (PyExn "KeyError" "not in index").

(** [range(n)] *)
Definition py_range (n : nat) : list Z := Z.of_nat <$> seq 0 n.

(** [zip(a, b, c)]: stops with the shortest argument. *)
Fixpoint zip3 {A B C} (xs : list A) (ys : list B) (zs : list C) : list (A * B * C) :=
  match xs, ys, zs with
  | x :: xs, y :: ys, z :: zs => (x, y, z) :: zip3 xs ys zs
  | _, _, _ => []
  end.

End Model.

Arguments Obj : clear implicits.
Arguments ndarray2 : clear implicits.
Arguments Series : clear implicits.
Arguments CleanData : clear implicits.

(** ** The text of the Stan model (cells 4, 6, 8 and 10) *)

Definition unpooled_data : string := "
data {
  int<lower=0> N;
  int<lower=1, upper=85> county[N];
  vector[N] x;
  vector[N] y;
}
".

Definition unpooled_parameters : string := "
parameters {
  vector[85] a;
  real beta;
  real<lower=0, upper=100> sigma;
}
".

Definition unpooled_transformed_parameters : string := "
transformed parameters {
  vector[N] y_hat;
  
  for (i in 1:N)
    y_hat[i] <- beta * x[i] + a[county[i]];
}
".

Definition unpooled_model : string := "
model {
  y ~ normal(y_hat, sigma);
}
".

(** The argument [model_code] of the call in cell 12; [+] on Python strings
    associates to the left. *)
Definition model_code : string :=
  ((unpooled_data +:+ unpooled_parameters) +:+
   unpooled_transformed_parameters) +:+ unpooled_model.

(** ** The Stan program, as far as the data reach into it *)

(** An index outside a container is an error in Stan. *)
Inductive StanError := OutOfRange (variable : string) (index : Z).

(** [v[i]]: Stan counts from 1. *)
Definition stan_at {A} (name : string) (v : list A) (i : Z) : StanError + A :=
  if decide (1 ≤ i)%Z
  then match v !! Z.to_nat (i - 1) with
       | Some x => inr x
       | None => inl (OutOfRange name i)
       end
  else inl (OutOfRange name i).

(** The body of the loop of the transformed-parameters block:
    [y_hat[i] <- beta * x[i] + a[county[i]]]. *)
Definition y_hat_at `{Float64 F} (beta : F) (a x : list F) (county : list Z)
    (i : Z) : StanError + F :=
  match stan_at "x" x i with
  | inl e => inl e
  | inr xi =>
      match stan_at "county" county i with
      | inl e => inl e
      | inr ci =>
          match stan_at "a" a ci with
          | inl e => inl e
          | inr ai => inr (f_add (f_mul beta xi) ai)
          end
      end
  end.

(** The loop of the transformed-parameters block, [for (i in 1:N)]: the
    vector [y_hat], or the first index error. *)
Definition y_hat `{Float64 F} (beta : F) (a x : list F) (county : list Z)
    (N : Z) : StanError + list F :=
  foldr (λ i rest,
           match y_hat_at beta a x county i with
           | inl e => inl e
           | inr v => match rest with
                      | inl e => inl e
                      | inr vs => inr (v :: vs)
                      end
           end)
        (inr []) (Z.of_nat <$> seq 1 (Z.to_nat N)).

(** The bounds the data block declares for [county]. *)
Definition county_declared (county : list Z) : Prop :=
  Forall (λ c, 1 ≤ c ≤ 85)%Z county.

(** The length the parameters block declares for [a]. *)
Definition a_declared {A} (a : list A) : Prop := length a = 85.

Global Instance county_declared_dec county : Decision (county_declared county).
Proof. unfold county_declared. apply _. Defined.

(** What Stan finds wrong with the data when it reads them: a variable that
    has not the declared size, or a value outside the declared bounds. *)
Inductive DataError :=
| WrongSize (variable : string)
| OutOfBounds (variable : string).

(** The declarations of the data block, checked against the data: [N] is
    not negative, [county] has [N] entries between 1 and 85, [x] and [y]
    have [N] entries.  The result lists every declaration that fails. *)
Definition check_data {A} (N : Z) (county : list Z) (x y : list A)
    : list DataError :=
  (if decide (0 ≤ N)%Z then [] else [OutOfBounds "N"]) ++
  (if decide (Z.of_nat (length county) = N) then [] else [WrongSize "county"]) ++
  (if decide (county_declared county) then [] else [OutOfBounds "county"]) ++
  (if decide (Z.of_nat (length x) = N) then [] else [WrongSize "x"]) ++
  (if decide (Z.of_nat (length y) = N) then [] else [WrongSize "y"]).

(** The transformed parameters for given values of the parameters: the
    data are read and checked before any block runs, and data that fail a
    declaration are refused; only then the loop runs. *)
Definition transformed_parameters `{Float64 F} (beta : F) (a : list F)
    (N : Z) (county : list Z) (x y : list F)
    : list DataError + (StanError + list F) :=
  match check_data N county x y with
  | [] => inr (y_hat beta a x county N)
  | errors => inl errors
  end.

(** A pattern occurs in a text. *)
Definition occurs (pat text : string) : Prop :=
  ∃ n, String.substring n (String.length pat) text = pat.

(** ** The outside world *)

Section World.
Context {F Fit W : Type}.

(** The calls that leave the notebook.  [Fit] is the class of the object
    [pystan.stan] returns. *)
Inductive Call :=
| Magic (line : string)
| ImportModule (name : string)
| SnsSetContext (context : string)
| PystanStan (kwargs : list (string * Arg))
| FitGetItem (fit : Fit) (key : string)
| Display (s : Series F)
| PltScatter (xs : list Z) (ys : list F)
| PltPlot (xs : list Z) (ys : list F) (fmt : string)
| PltXlim (lo hi : Z)
| PltYlim (lo hi : Z)
| PltTitle (s : string)
| PltXlabel (s : string)
| PltYlabel (s : string).

Inductive Reply :=
| RNone
| RModule (m : CleanData F)
| RFit (f : Fit)
| RArray (a : ndarray2 F).

Inductive Outcome := Returned (r : Reply) | Raised (e : Exn).

(** What the libraries answer.  A call sees the heap (the sampler reads the
    arrays the data dictionary refers to) and the hidden state [W] of the
    outside (random number generator, current figure); it returns or raises. *)
Record Env := mk_Env {
  ext_unit : Call → gmap loc (Obj F) → W → (Exn + unit) * W;
  ext_clean_data : gmap loc (Obj F) → W → (Exn + CleanData F) * W;
  ext_stan : list (string * Arg) → gmap loc (Obj F) → W → (Exn + Fit) * W;
  ext_getitem : Fit → string → gmap loc (Obj F) → W → (Exn + ndarray2 F) * W
}.

Inductive Kind := KSetup | KLoad | KSample | KExtract | KReport.

Global Instance Kind_eq_dec : EqDecision Kind.
Proof. solve_decision. Defined.

(** Imports of libraries, the notebook magic and the seaborn context set up
    the session; importing [clean_data] loads the dataset; [pystan.stan]
    samples; indexing the fit extracts; the display hook and matplotlib
    report. *)
Definition kind_of (c : Call) : Kind :=
  match c with
  | Magic _ => KSetup
  | ImportModule name => if String.eqb name "clean_data" then KLoad else KSetup
  | SnsSetContext _ => KSetup
  | PystanStan _ => KSample
  | FitGetItem _ _ => KExtract
  | Display _ => KReport
  | PltScatter _ _ | PltPlot _ _ _ | PltXlim _ _ | PltYlim _ _
  | PltTitle _ | PltXlabel _ | PltYlabel _ => KReport
  end.

(** The call is of one of the kinds [ks]. *)
Definition of_kinds (ks : list Kind) (p : Call * Outcome) : Prop :=
  bool_decide (kind_of p.1 ∈ ks).

(** The keyword arguments of every call of the sampler. *)
Definition stan_calls (t : list (Call * Outcome))
    : list (list (string * Arg)) :=
  omap (λ p, match p.1 with PystanStan kw => Some kw | _ => None end) t.

(** The arrays the indexings of the fit returned. *)
Definition extracted (t : list (Call * Outcome))
    : list (ndarray2 F) :=
  omap (λ p, match p with
             | (FitGetItem _ _, Returned (RArray a)) => Some a
             | _ => None
             end) t.

(** The county names the import of [clean_data] returned. *)
Definition county_index (t : list (Call * Outcome))
    : list (list string) :=
  omap (λ p, match p with
             | (ImportModule _, Returned (RModule m)) => Some (v_mn_counties m)
             | _ => None
             end) t.

(** The calls that draw and display. *)
Definition reported (t : list (Call * Outcome)) : list (Call * Outcome) :=
  filter (λ p, kind_of p.1 = KReport) t.

(** The x positions of the error bars drawn. *)
Definition bar_positions (t : list (Call * Outcome)) : list (list Z) :=
  omap (λ p, match p with
             | (PltPlot xs _ _, Returned _) => Some xs
             | _ => None
             end) t.

End World.

(** ** A small world for examples *)

(** Integers in place of floats: division and square root round down. *)
Global Instance Z_float : Float64 Z :=
  {| f_of_Z := id; f_add := Z.add; f_sub := Z.sub; f_mul := Z.mul;
     f_div := Z.div; f_sqrt := Z.sqrt; f_leb := Z.leb; f_isnan := λ _, false |}.

(** Four households in three counties; the sampler returns two draws. *)
Definition example_data : CleanData Z :=
  mk_CleanData [1; 2; 3; 2]%Z [0; 1; 1; 84]%Z [0; 1; 0; 1]%Z ["AITKIN"; "ANOKA"; "BECKER"].

Definition example_draws : ndarray2 Z :=
  mk_ndarray2 3 [[4; 2; 9]; [6; 2; 1]]%Z.

(** An outside in which every call returns. *)
Definition example_env : @Env Z nat unit :=
  mk_Env (λ _ _ w, (inr (), w))
         (λ _ w, (inr example_data, w))
         (λ _ _ w, (inr 7, w))
         (λ _ _ _ w, (inr example_draws, w)).

(** The same answers from an outside that counts its calls. *)
Definition counting_env : @Env Z nat nat :=
  mk_Env (λ _ _ w, (inr (), S w))
         (λ _ w, (inr example_data, S w))
         (λ _ _ w, (inr 8, S w))
         (λ _ _ _ w, (inr example_draws, S w)).

(** A dataset in which a county name occurs twice. *)
Definition twin_data : CleanData Z :=
  mk_CleanData [1; 2; 3; 2]%Z [0; 1; 1; 2]%Z [0; 1; 0; 1]%Z ["AITKIN"; "ANOKA"; "AITKIN"].

Definition twin_env : @Env Z nat unit :=
  mk_Env (λ _ _ w, (inr (), w))
         (λ _ w, (inr twin_data, w))
         (λ _ _ w, (inr 7, w))
         (λ _ _ _ w, (inr example_draws, w)).

(** Draws with a column too few for the three counties. *)
Definition narrow_draws : ndarray2 Z := mk_ndarray2 2 [[4; 2]; [6; 2]]%Z.

Definition narrow_env : @Env Z nat unit :=
  mk_Env (λ _ _ w, (inr (), w))
         (λ _ w, (inr example_data, w))
         (λ _ _ w, (inr 7, w))
         (λ _ _ _ w, (inr narrow_draws, w)).

(** An outside whose sampler refuses the model. *)
Definition failing_env : @Env Z nat unit :=
  mk_Env (λ _ _ w, (inr (), w))
         (λ _ w, (inr example_data, w))
         (λ _ _ w, (inl (PyExn "ValueError" "Failed to parse Stan model"), w))
         (λ _ _ _ w, (inr example_draws, w)).

(** ** The interpreter state and the notebook *)

Section Notebook.
Context {F : Type} `{Float64 F}.
Context {Fit W : Type}.

Local Abbreviation Call := (@Call F Fit).
Local Abbreviation Reply := (@Reply F Fit).
Local Abbreviation Outcome := (@Outcome F Fit).
Local Abbreviation Env := (@Env F Fit W).

(** The state of the Python process: the arrays, the names of the module
    [clean_data], the log of the calls made so far, and the state of the
    outside. *)
Record PyState := mk_PyState {
  heap : gmap loc (Obj F);
  clean_data : gmap string loc;
  trace : list (Call * Outcome);
  world : W
}.

(** A fresh kernel. *)
Definition init_state (w : W) : PyState := mk_PyState ∅ ∅ [] w.

(** A computation either returns a value or raises; the state survives both. *)
Definition Py (A : Type) : Type := PyState → (Exn + A) * PyState.

Definition py_ret {A} (x : A) : Py A := λ s, (inr x, s).

Definition py_bind {A B} (m : Py A) (k : A → Py B) : Py B :=
  λ s, match m s with
       | (inr x, s') => k x s'
       | (inl e, s') => (inl e, s')
       end.

Definition py_raise {A} (e : Exn) : Py A := λ s, (inl e, s).

(** The result of a library function of the model. *)
Definition py_lift {A} (r : Exn + A) : Py A := λ s, (r, s).

(** [try: m except Exception as e: h e] *)
Definition py_try {A} (m : Py A) (h : Exn → Py A) : Py A :=
  λ s, match m s with
       | (inr x, s') => (inr x, s')
       | (inl e, s') => h e s'
       end.

Variable env : Env.

(** The state after a call [c] with outcome [o] that left the outside in [w]. *)
Definition log (c : Call) (o : Outcome) (w : W) (s : PyState) : PyState :=
  mk_PyState (heap s) (clean_data s) (trace s ++ [(c, o)]) w.

(** An external call: the environment answers, the call is logged. *)
Definition external {A} (c : Call)
    (h : gmap loc (Obj F) → W → (Exn + A) * W) (inj : A → Reply) : Py A :=
  λ s, match h (heap s) (world s) with
       | (inr x, w) => (inr x, log c (Returned (inj x)) w s)
       | (inl e, w) => (inl e, log c (Raised e) w s)
       end.

Definition external_unit (c : Call) : Py unit :=
  external c (ext_unit env c) (λ _, RNone).

(** A new object. *)
Definition alloc (o : Obj F) : Py loc :=
  λ s, let l := fresh (dom (heap s)) in
       (inr l, mk_PyState (<[l:=o]> (heap s)) (clean_data s) (trace s) (world s)).

Definition deref (l : loc) : Py (Obj F) :=
  λ s, match heap s !! l with
       | Some o => (inr o, s)
       | None => (inl (PyExn "SystemError" "dangling reference"), s)
       end.

(** In-place update of an array, as [a += 1] or [a[i] = v] would do. *)
Definition store (l : loc) (o : Obj F) : Py unit :=
  λ s, (inr (), mk_PyState (<[l:=o]> (heap s)) (clean_data s) (trace s) (world s)).

(** [clean_data.name] *)
Definition getattr (name : string) : Py loc :=
  λ s, match clean_data s !! name with
       | Some l => (inr l, s)
       | None => (inl (PyExn "AttributeError" name), s)
       end.

(** [clean_data.name = value] *)
Definition setattr (name : string) (l : loc) : Py unit :=
  λ s, (inr (), mk_PyState (heap s) (<[name:=l]> (clean_data s)) (trace s) (world s)).

Notation "'let*' x ':=' m 'in' k" := (py_bind m (λ x, k))
  (at level 10, x name, m at level 100, k at level 200, only parsing).

Fixpoint py_for {A} (xs : list A) (body : A → Py unit) : Py unit :=
  match xs with
  | [] => py_ret ()
  | x :: xs => let* _ := body x in py_for xs body
  end.

(** [import clean_data]: the module's code runs outside the notebook; its
    arrays become objects and its names are bound to them. *)
Definition bind_module (m : CleanData F) : Py unit :=
  let* l1 := alloc (FloatArray (v_log_radon m)) in
  let* l2 := alloc (IntArray (v_county m)) in
  let* l3 := alloc (FloatArray (v_floor_measure m)) in
  let* l4 := alloc (StrArray (v_mn_counties m)) in
  λ s, (inr (),
        mk_PyState (heap s)
          (<["mn_counties":=l4]> (<["floor_measure":=l3]>
             (<["county":=l2]> (<["log_radon":=l1]> (clean_data s)))))
          (trace s) (world s)).

Definition import_clean_data : Py unit :=
  let* m := external (ImportModule "clean_data") (ext_clean_data env) RModule in
  bind_module m.

(** [len(a)] of an array *)
Definition py_len (l : loc) : Py Z :=
  let* o := deref l in
  py_ret (Z.of_nat match o with
                   | IntArray xs => length xs
                   | FloatArray xs => length xs
                   | StrArray xs => length xs
                   end).

(** [a + k] for an array [a] and a Python int [k]: a new array. *)
Definition np_add_scalar (l : loc) (k : Z) : Py loc :=
  let* o := deref l in
  match o with
  | IntArray xs => alloc (IntArray ((λ x, wrap64 (x + k)) <$> xs))
  | FloatArray xs => alloc (FloatArray ((λ x, f_add x (f_of_Z k)) <$> xs))
  | StrArray _ => py_raise (PyExn "TypeError" "ufunc 'add' did not contain a loop with matching types")
  end.

(** The labels of an index built from an array of names.  The import binds
    [mn_counties] to an array of names, so the other cases do not arise. *)
Definition as_index (l : loc) : Py (list string) :=
  let* o := deref l in
  match o with
  | StrArray xs => py_ret xs
  | _ => py_raise (PyExn "TypeError" "index labels are not strings")
  end.

Definition pystan_stan (kwargs : list (string * Arg)) : Py Fit :=
  external (PystanStan kwargs) (ext_stan env kwargs) RFit.

Definition fit_getitem (fit : Fit) (key : string) : Py (ndarray2 F) :=
  external (FitGetItem fit key) (ext_getitem env fit key) RArray.

(** [plt.scatter(x, y)]: matplotlib refuses sequences of different sizes. *)
Definition plt_scatter (xs : list Z) (ys : list F) : Py unit :=
  external (PltScatter xs ys)
    (λ h w, if decide (length xs = length ys)
            then ext_unit env (PltScatter xs ys) h w
            else (inl (PyExn "ValueError" "x and y must be the same size"), w))
    (λ _, RNone).

(** Cell 1 *)
Definition cell1 : Py unit :=
  let* _ := external_unit (Magic "pylab inline") in
  let* _ := external_unit (ImportModule "numpy") in
  let* _ := external_unit (ImportModule "pandas") in
  let* _ := external_unit (ImportModule "pystan") in
  let* _ := external_unit (ImportModule "seaborn") in
  let* _ := import_clean_data in
  external_unit (SnsSetContext "notebook").

(** Cell 12, first statement *)
Definition make_data_dict : Py (gmap string DVal) :=
  let* lr := getattr "log_radon" in
  let* n := py_len lr in
  let* c := getattr "county" in
  let* c1 := np_add_scalar c 1 in
  let* x := getattr "floor_measure" in
  let* y := getattr "log_radon" in
  py_ret (<["y":=DRef y]> (<["x":=DRef x]> (<["county":=DRef c1]> (<["N":=DInt n]> ∅)))).

Definition stan_kwargs (d : gmap string DVal) : list (string * Arg) :=
  [("model_code", AStr model_code); ("data", ADict d);
   ("iter", AInt 1000); ("chains", AInt 2)].

(** Cell 12 *)
Definition cell12 : Py (gmap string DVal * Fit) :=
  let* unpooled_data_dict := make_data_dict in
  let* unpooled_fit := pystan_stan (stan_kwargs unpooled_data_dict) in
  py_ret (unpooled_data_dict, unpooled_fit).

(** Cell 14 *)
Definition cell14 (unpooled_fit : Fit) : Py (Series F * Series F) :=
  let* a := fit_getitem unpooled_fit "a" in
  let* names := getattr "mn_counties" in
  let* index := as_index names in
  let* unpooled_estimates := py_lift (pd_Series (mean0 a) index) in
  let* a' := fit_getitem unpooled_fit "a" in
  let* names' := getattr "mn_counties" in
  let* index' := as_index names' in
  let* unpooled_se := py_lift (pd_Series (std0 a') index') in
  let* _ := external_unit (Display (head unpooled_estimates)) in
  py_ret (unpooled_estimates, unpooled_se).

(** One error bar of cell 16: [plt.plot([i,i], [m - se, m + se], 'b-')] *)
Definition bar_call (p : Z * F * F) : Call :=
  let '(i, m, se) := p in PltPlot [i; i] [f_sub m se; f_add m se] "b-".

Definition error_bar (p : Z * F * F) : Py unit := external_unit (bar_call p).

(** Cell 16 *)
Definition cell16 (unpooled_estimates unpooled_se : Series F) : Py (list string) :=
  let order := s_index (sort_values unpooled_estimates) in
  let* ys := py_lift (getitem_labels unpooled_estimates order) in
  let* _ := plt_scatter (py_range (s_len unpooled_estimates)) (s_values ys) in
  let* ms := py_lift (getitem_labels unpooled_estimates order) in
  let* ses := py_lift (getitem_labels unpooled_se order) in
  let* _ := py_for (zip3 (py_range (s_len unpooled_estimates)) (s_values ms) (s_values ses))
                   error_bar in
  let* _ := external_unit (PltXlim (-1) 86) in
  let* _ := external_unit (PltYlim (-1) 4) in
  let* _ := external_unit (PltTitle "Variation in county radon estimates") in
  let* _ := external_unit (PltXlabel "Ordered county") in
  let* _ := external_unit (PltYlabel "Radon estimate") in
  py_ret order.

(** The names the notebook has bound when it ends. *)
Record Namespace := mk_Namespace {
  unpooled_data_dict : gmap string DVal;
  unpooled_fit : Fit;
  unpooled_estimates : Series F;
  unpooled_se : Series F;
  order : list string
}.

(** The notebook, run from top to bottom. *)
Definition notebook : Py Namespace :=
  let* _ := cell1 in
  let* df := cell12 in
  let* es := cell14 df.2 in
  let* o := cell16 es.1 es.2 in
  py_ret (mk_Namespace df.1 df.2 es.1 es.2 o).

(** ** What is said about computations and runs *)

(** Every call [m] makes satisfies [Φ]. *)
Definition emits {A} (Φ : Call * Outcome → Prop) (m : Py A) : Prop :=
  ∀ s r s', m s = (r, s') → ∃ t, trace s' = trace s ++ t ∧ Forall Φ t.

Definition returned (p : Call * Outcome) : Prop := ∃ r, p.2 = Returned r.

(** The calls [t] of a computation and its result [r] agree: when it returns,
    every call returned; when it raises [e], either a library function of the
    notebook's own process raised it after calls that all returned, or the
    last call raised [e] and the calls before it returned. *)
Definition faithful {A} (r : Exn + A) (t : list (Call * Outcome)) : Prop :=
  match r with
  | inr _ => Forall returned t
  | inl e => Forall returned t ∨
             ∃ t0 c, t = t0 ++ [(c, Raised e)] ∧ Forall returned t0
  end.

Definition propagates {A} (m : Py A) : Prop :=
  ∀ s r s', m s = (r, s') → ∃ t, trace s' = trace s ++ t ∧ faithful r t.

(** When [m] raises, a call raised: the last one [m] made. *)
Definition relays {A} (m : Py A) : Prop :=
  ∀ s e s', m s = (inl e, s') →
    ∃ t0 c, trace s' = trace s ++ t0 ++ [(c, Raised e)].

(** [m] changes no object that exists and no binding of [clean_data]. *)
Definition preserves {A} (m : Py A) : Prop :=
  ∀ s r s', m s = (r, s') → heap s ⊆ heap s' ∧ clean_data s' = clean_data s.

(** The object an attribute of [clean_data] is bound to. *)
Definition attr_value (s : PyState) (name : string) : option (Obj F) :=
  clean_data s !! name ≫= λ l, heap s !! l.

(** The attributes of [clean_data] hold the arrays [m]. *)
Definition loaded (m : CleanData F) (s : PyState) : Prop :=
  attr_value s "log_radon" = Some (FloatArray (v_log_radon m)) ∧
  attr_value s "county" = Some (IntArray (v_county m)) ∧
  attr_value s "floor_measure" = Some (FloatArray (v_floor_measure m)) ∧
  attr_value s "mn_counties" = Some (StrArray (v_mn_counties m)).

(** The data dictionary built from a loaded dataset. *)
Definition data_dict_of (n : Z) (c x y : loc) : gmap string DVal :=
  <["y":=DRef y]> (<["x":=DRef x]> (<["county":=DRef c]> (<["N":=DInt n]> ∅))).

Definition stan_county (cs : list Z) : list Z := (λ x, wrap64 (x + 1)) <$> cs.

(** The dictionary [d] was built from the dataset [m]: ['N'] is the length of
    [log_radon], ['county'] refers to a new array holding the county codes
    plus one, ['x'] and ['y'] refer to the dataset's own arrays. *)
Definition dict_ok (m : CleanData F) (d : gmap string DVal) (s : PyState) : Prop :=
  ∃ lc1 lx ly lc,
    d = data_dict_of (Z.of_nat (length (v_log_radon m))) lc1 lx ly ∧
    heap s !! lc1 = Some (IntArray (stan_county (v_county m))) ∧
    clean_data s !! "county" = Some lc ∧ lc ≠ lc1 ∧
    clean_data s !! "floor_measure" = Some lx ∧
    clean_data s !! "log_radon" = Some ly.

Definition load_entry (m : CleanData F) : Call * Outcome :=
  (ImportModule "clean_data", Returned (RModule m)).

(** The error of the summary computation of cell 14, if there is one, on the
    arrays [xs] extracted so far: [pd.Series] is applied to the column means
    of the first array and to the column standard deviations of the second,
    with the county names of [m] as index. *)
Definition summary_error (m : CleanData F) (xs : list (ndarray2 F)) : option Exn :=
  match xs with
  | [a] =>
      match pd_Series (mean0 a) (v_mn_counties m) with
      | inl e => Some e
      | inr _ => None
      end
  | [a; a'] =>
      match pd_Series (mean0 a) (v_mn_counties m),
            pd_Series (std0 a') (v_mn_counties m) with
      | inl e, _ => Some e
      | inr _, inl e => Some e
      | inr _, inr _ => None
      end
  | _ => None
  end.

(** The calls of cell 1 when all of them return. *)
Definition setup_calls (m : CleanData F) : list (Call * Outcome) :=
  [(Magic "pylab inline", Returned RNone);
   (ImportModule "numpy", Returned RNone);
   (ImportModule "pandas", Returned RNone);
   (ImportModule "pystan", Returned RNone);
   (ImportModule "seaborn", Returned RNone);
   (ImportModule "clean_data", Returned (RModule m));
   (SnsSetContext "notebook", Returned RNone)].

(** The calls of cell 14 when all of them return. *)
Definition extract_calls (fit : Fit) (a a' : ndarray2 F) (est : Series F)
    : list (Call * Outcome) :=
  [(FitGetItem fit "a", Returned (RArray a));
   (FitGetItem fit "a", Returned (RArray a'));
   (Display (head est), Returned RNone)].

(** The calls of cell 16 when all of them return: the scatter plot of the
    reordered estimates [ys], one error bar per position, and the decoration
    of the axes. *)
Definition figure_calls (n : nat) (ys ses : Series F) : list (Call * Outcome) :=
  [(PltScatter (py_range n) (s_values ys), Returned RNone)] ++
  ((λ p, (bar_call p, Returned RNone)) <$>
     zip3 (py_range n) (s_values ys) (s_values ses)) ++
  [(PltXlim (-1) 86, Returned RNone);
   (PltYlim (-1) 4, Returned RNone);
   (PltTitle "Variation in county radon estimates", Returned RNone);
   (PltXlabel "Ordered county", Returned RNone);
   (PltYlabel "Radon estimate", Returned RNone)].

(** A call of cells 14 and 16: it extracts from [fit] or it reports. *)
Definition after_sampling (fit : Fit) (p : Call * Outcome) : Prop :=
  of_kinds [KExtract; KReport] p ∧
  ∀ f k, p.1 = FitGetItem f k → f = fit ∧ k = "a".

(** The calls [t1] of cell 1, [t2] of cell 12 and [t3] of cells 14 and 16 in
    a run that ends in state [s]. *)
Definition run_shape (s : PyState) (t1 t2 t3 : list (Call * Outcome)) : Prop :=
  Forall (of_kinds [KSetup; KLoad]) t1 ∧
  (∀ m, load_entry m ∈ t1 → loaded m s) ∧
  ((t2 = [] ∧ t3 = [] ∧ ∃ t0 c e, t1 = t0 ++ [(c, Raised e)]) ∨
   ∃ m d o, load_entry m ∈ t1 ∧
            t2 = [(PystanStan (stan_kwargs d), o)] ∧ dict_ok m d s ∧
            match o with
            | Raised _ => t3 = []
            | Returned rep => ∃ fit, rep = RFit fit ∧ Forall (after_sampling fit) t3
            end).

(** The calls of a run in which every call returned: [m] is the dataset,
    [a] and [a'] are the arrays the two indexings of the fit gave, [ys] and
    [ses] are the estimates and standard errors in plotting order. *)
Definition run_calls (ns : Namespace) (m : CleanData F) (a a' : ndarray2 F)
    (ys ses : Series F) : list (Call * Outcome) :=
  setup_calls m ++
  [(PystanStan (stan_kwargs (unpooled_data_dict ns)),
    Returned (RFit (unpooled_fit ns)))] ++
  extract_calls (unpooled_fit ns) a a' (unpooled_estimates ns) ++
  figure_calls (s_len (unpooled_estimates ns)) ys ses.

(** How the names of the notebook are computed in such a run. *)
Definition run_values (ns : Namespace) (m : CleanData F) (a a' : ndarray2 F)
    (ys ses : Series F) : Prop :=
  pd_Series (mean0 a) (v_mn_counties m) = inr (unpooled_estimates ns) ∧
  pd_Series (std0 a') (v_mn_counties m) = inr (unpooled_se ns) ∧
  order ns = s_index (sort_values (unpooled_estimates ns)) ∧
  getitem_labels (unpooled_estimates ns) (order ns) = inr ys ∧
  getitem_labels (unpooled_se ns) (order ns) = inr ses ∧
  length (s_values ys) = s_len (unpooled_estimates ns).

(** The same, without the order the sort gave to equal estimates: [order]
    is a rearrangement of the county names, and the plotted series [ys] and
    [ses] are the estimates and the standard errors indexed by it. *)
Definition run_summaries (ns : Namespace) (m : CleanData F) (a a' : ndarray2 F)
    (ys ses : Series F) : Prop :=
  pd_Series (mean0 a) (v_mn_counties m) = inr (unpooled_estimates ns) ∧
  pd_Series (std0 a') (v_mn_counties m) = inr (unpooled_se ns) ∧
  order ns ≡ₚ v_mn_counties m ∧
  getitem_labels (unpooled_estimates ns) (order ns) = inr ys ∧
  getitem_labels (unpooled_se ns) (order ns) = inr ses ∧
  length (s_values ys) = s_len (unpooled_estimates ns).

(** ** Reasoning about computations *)

Lemma py_bind_inv {A B} (m : Py A) (k : A → Py B) s r s' :
  py_bind m k s = (r, s') →
  (∃ e, m s = (inl e, s') ∧ r = inl e) ∨
  (∃ x s1, m s = (inr x, s1) ∧ k x s1 = (r, s')).
Proof.
  unfold py_bind. destruct (m s) as [[e|x] s1]; intros Hr.
  - left. exists e. by inversion Hr.
  - right. by exists x, s1.
Qed.

Lemma py_bind_ok {A B} (m : Py A) (k : A → Py B) s x s1 :
  m s = (inr x, s1) → py_bind m k s = k x s1.
Proof. unfold py_bind. by intros ->. Qed.

Lemma py_bind_err {A B} (m : Py A) (k : A → Py B) s e s1 :
  m s = (inl e, s1) → py_bind m k s = (inl e, s1).
Proof. unfold py_bind. by intros ->. Qed.

(** What an external call does to the state. *)
Lemma external_inv {A} c (h : gmap loc (Obj F) → W → (Exn + A) * W) inj s r s' :
  external c h inj s = (r, s') →
  ∃ w o, h (heap s) (world s) = (r, w) ∧ s' = log c o w s ∧
         o = match r with inr x => Returned (inj x) | inl e => Raised e end.
Proof.
  unfold external. destruct (h (heap s) (world s)) as [[e|x] w]; intros Hr;
    inversion Hr; subst; eauto.
Qed.

Lemma emits_ret {A} Φ (x : A) : emits Φ (py_ret x).
Proof. intros s r s' Hr. inversion Hr; subst. exists []. by rewrite app_nil_r. Qed.

Lemma emits_raise {A} Φ e : emits Φ (@py_raise A e).
Proof. intros s r s' Hr. inversion Hr; subst. exists []. by rewrite app_nil_r. Qed.

Lemma emits_lift {A} Φ (v : Exn + A) : emits Φ (py_lift v).
Proof. intros s r s' Hr. inversion Hr; subst. exists []. by rewrite app_nil_r. Qed.

Lemma emits_bind {A B} Φ (m : Py A) (k : A → Py B) :
  emits Φ m → (∀ x, emits Φ (k x)) → emits Φ (py_bind m k).
Proof.
  intros Hm Hk s r s' Hr.
  apply py_bind_inv in Hr as [(e & Hr & ->)|(x & s1 & Hr & Hr')].
  - eauto.
  - destruct (Hm _ _ _ Hr) as (t1 & E1 & F1).
    destruct (Hk _ _ _ _ Hr') as (t2 & E2 & F2).
    exists (t1 ++ t2). rewrite E2, E1, (assoc_L (++)). split; [done|].
    by apply Forall_app.
Qed.

Lemma emits_external {A} Φ c (h : gmap loc (Obj F) → W → (Exn + A) * W) inj :
  (∀ o, Φ (c, o)) → emits Φ (external c h inj).
Proof.
  intros HΦ s r s' Hr. apply external_inv in Hr as (w & o & _ & -> & _).
  exists [(c, o)]. split; [done|]. by constructor.
Qed.

Lemma emits_alloc Φ o : emits Φ (alloc o).
Proof. intros s r s' Hr. inversion Hr; subst. exists []. by rewrite app_nil_r. Qed.

Lemma emits_deref Φ l : emits Φ (deref l).
Proof.
  intros s r s' Hr. unfold deref in Hr.
  destruct (heap s !! l); inversion Hr; subst; exists []; by rewrite app_nil_r.
Qed.

Lemma emits_getattr Φ n : emits Φ (getattr n).
Proof.
  intros s r s' Hr. unfold getattr in Hr.
  destruct (clean_data s !! n); inversion Hr; subst; exists []; by rewrite app_nil_r.
Qed.

Lemma emits_for {A} Φ (xs : list A) body :
  (∀ x, emits Φ (body x)) → emits Φ (py_for xs body).
Proof.
  intros Hb. induction xs as [|x xs IH]; simpl.
  - apply emits_ret.
  - apply emits_bind; auto.
Qed.

Lemma faithful_nil {A} (r : Exn + A) : faithful r [].
Proof. destruct r; simpl; auto. Qed.

Lemma propagates_silent {A} (m : Py A) :
  (∀ s r s', m s = (r, s') → trace s' = trace s) → propagates m.
Proof.
  intros Hm s r s' Hr. exists []. rewrite app_nil_r.
  split; [by eapply Hm|apply faithful_nil].
Qed.

Lemma propagates_ret {A} (x : A) : propagates (py_ret x).
Proof. apply propagates_silent. intros s r s' Hr. by inversion Hr. Qed.

Lemma propagates_raise {A} e : propagates (@py_raise A e).
Proof. apply propagates_silent. intros s r s' Hr. by inversion Hr. Qed.

Lemma propagates_lift {A} (v : Exn + A) : propagates (py_lift v).
Proof. apply propagates_silent. intros s r s' Hr. by inversion Hr. Qed.

Lemma propagates_alloc o : propagates (alloc o).
Proof. apply propagates_silent. intros s r s' Hr. by inversion Hr. Qed.

Lemma propagates_deref l : propagates (deref l).
Proof.
  apply propagates_silent. intros s r s' Hr. unfold deref in Hr.
  destruct (heap s !! l); by inversion Hr.
Qed.

Lemma propagates_getattr n : propagates (getattr n).
Proof.
  apply propagates_silent. intros s r s' Hr. unfold getattr in Hr.
  destruct (clean_data s !! n); by inversion Hr.
Qed.

Lemma propagates_external {A} c (h : gmap loc (Obj F) → W → (Exn + A) * W) inj :
  propagates (external c h inj).
Proof.
  intros s r s' Hr. apply external_inv in Hr as (w & o & _ & -> & ->).
  eexists [_]. split; [done|]. destruct r as [e|x]; simpl.
  - right. exists [], c. by split.
  - constructor; [by eexists|done].
Qed.

Lemma propagates_bind {A B} (m : Py A) (k : A → Py B) :
  propagates m → (∀ x, propagates (k x)) → propagates (py_bind m k).
Proof.
  intros Hm Hk s r s' Hr.
  apply py_bind_inv in Hr as [(e & Hr & ->)|(x & s1 & Hr & Hr')].
  - destruct (Hm _ _ _ Hr) as (t & E & Ft). by exists t.
  - destruct (Hm _ _ _ Hr) as (t1 & E1 & F1).
    destruct (Hk _ _ _ _ Hr') as (t2 & E2 & F2).
    exists (t1 ++ t2). rewrite E2, E1, (assoc_L (++)). split; [done|].
    simpl in F1. destruct r as [e|y]; simpl in *.
    + destruct F2 as [F2|(t0 & c & -> & F2)].
      * left. by apply Forall_app.
      * right. exists (t1 ++ t0), c. rewrite (assoc_L (++)).
        split; [done|]. by apply Forall_app.
    + by apply Forall_app.
Qed.

Lemma propagates_for {A} (xs : list A) body :
  (∀ x, propagates (body x)) → propagates (py_for xs body).
Proof.
  intros Hb. induction xs as [|x xs IH]; simpl.
  - apply propagates_ret.
  - apply propagates_bind; auto.
Qed.

Lemma preserves_pure {A} (m : Py A) :
  (∀ s r s', m s = (r, s') → heap s' = heap s ∧ clean_data s' = clean_data s) →
  preserves m.
Proof. intros Hm s r s' Hr. destruct (Hm _ _ _ Hr) as [-> ->]. done. Qed.

Lemma preserves_ret {A} (x : A) : preserves (py_ret x).
Proof. apply preserves_pure. intros s r s' Hr. by inversion Hr. Qed.

Lemma preserves_raise {A} e : preserves (@py_raise A e).
Proof. apply preserves_pure. intros s r s' Hr. by inversion Hr. Qed.

Lemma preserves_lift {A} (v : Exn + A) : preserves (py_lift v).
Proof. apply preserves_pure. intros s r s' Hr. by inversion Hr. Qed.

Lemma preserves_deref l : preserves (deref l).
Proof.
  apply preserves_pure. intros s r s' Hr. unfold deref in Hr.
  destruct (heap s !! l); by inversion Hr.
Qed.

Lemma preserves_getattr n : preserves (getattr n).
Proof.
  apply preserves_pure. intros s r s' Hr. unfold getattr in Hr.
  destruct (clean_data s !! n); by inversion Hr.
Qed.

Lemma preserves_external {A} c (h : gmap loc (Obj F) → W → (Exn + A) * W) inj :
  preserves (external c h inj).
Proof.
  apply preserves_pure. intros s r s' Hr.
  by apply external_inv in Hr as (w & o & _ & -> & _).
Qed.

Lemma alloc_fresh (s : PyState) : heap s !! fresh (dom (heap s)) = None.
Proof. apply not_elem_of_dom, is_fresh. Qed.

Lemma preserves_alloc o : preserves (alloc o).
Proof.
  intros s r s' Hr. inversion Hr; subst; simpl. split; [|done].
  apply insert_subseteq, alloc_fresh.
Qed.

Lemma preserves_bind {A B} (m : Py A) (k : A → Py B) :
  preserves m → (∀ x, preserves (k x)) → preserves (py_bind m k).
Proof.
  intros Hm Hk s r s' Hr.
  apply py_bind_inv in Hr as [(e & Hr & ->)|(x & s1 & Hr & Hr')].
  - eauto.
  - destruct (Hm _ _ _ Hr) as [S1 C1], (Hk _ _ _ _ Hr') as [S2 C2].
    split; [by etrans|congruence].
Qed.

Lemma preserves_for {A} (xs : list A) body :
  (∀ x, preserves (body x)) → preserves (py_for xs body).
Proof.
  intros Hb. induction xs as [|x xs IH]; simpl.
  - apply preserves_ret.
  - apply preserves_bind; auto.
Qed.

Create HintDb py discriminated.

#[local] Hint Resolve emits_ret emits_raise emits_lift emits_bind emits_external
  emits_alloc emits_deref emits_getattr emits_for
  propagates_ret propagates_raise propagates_lift propagates_alloc
  propagates_deref propagates_getattr propagates_external propagates_bind
  propagates_for
  preserves_ret preserves_raise preserves_lift preserves_deref
  preserves_getattr preserves_external preserves_alloc preserves_bind
  preserves_for : py.

(** Unfolds the operations of the notebook down to the primitives. *)
Ltac py_unfold :=
  unfold cell1, cell12, cell14, cell16, make_data_dict, error_bar,
    import_clean_data, py_len, np_add_scalar, as_index, pystan_stan,
    fit_getitem, plt_scatter, external_unit.

Lemma attr_value_Some s name o :
  attr_value s name = Some o ↔
  ∃ l, clean_data s !! name = Some l ∧ heap s !! l = Some o.
Proof.
  unfold attr_value. destruct (clean_data s !! name) as [l|]; simpl.
  - split; [eauto|]. by intros (l' & [= <-] & ?).
  - split; [done|]. by intros (l' & ? & ?).
Qed.

Lemma attr_value_stable s s' name o :
  heap s ⊆ heap s' → clean_data s' = clean_data s →
  attr_value s name = Some o → attr_value s' name = Some o.
Proof.
  intros Hh Hc. rewrite !attr_value_Some, Hc. intros (l & ? & ?).
  exists l. split; [done|]. by eapply lookup_weaken.
Qed.

Lemma loaded_stable m s s' :
  heap s ⊆ heap s' → clean_data s' = clean_data s → loaded m s → loaded m s'.
Proof.
  intros Hh Hc (?&?&?&?). repeat split; by eapply attr_value_stable.
Qed.

Lemma bind_module_spec m s :
  ∃ s', bind_module m s = (inr (), s') ∧ loaded m s' ∧
        trace s' = trace s ∧ world s' = world s.
Proof.
  unfold bind_module, py_bind, alloc; simpl.
  set (o1 := FloatArray (v_log_radon m)). set (l1 := fresh (dom (heap s))).
  set (h1 := <[l1:=o1]> (heap s)).
  set (o2 := IntArray (v_county m)). set (l2 := fresh (dom h1)).
  set (h2 := <[l2:=o2]> h1).
  set (o3 := FloatArray (v_floor_measure m)). set (l3 := fresh (dom h2)).
  set (h3 := <[l3:=o3]> h2).
  set (o4 := StrArray (v_mn_counties m)). set (l4 := fresh (dom h3)).
  set (h4 := <[l4:=o4]> h3).
  eexists. split; [reflexivity|]. split; [|done].
  assert (h2 ⊆ h3) as S23 by apply insert_subseteq, not_elem_of_dom, is_fresh.
  assert (h3 ⊆ h4) as S34 by apply insert_subseteq, not_elem_of_dom, is_fresh.
  assert (h1 ⊆ h2) as S12 by apply insert_subseteq, not_elem_of_dom, is_fresh.
  assert (h1 !! l1 = Some o1) as L1 by apply lookup_insert_eq.
  assert (h2 !! l2 = Some o2) as L2 by apply lookup_insert_eq.
  assert (h3 !! l3 = Some o3) as L3 by apply lookup_insert_eq.
  assert (h4 !! l4 = Some o4) as L4 by apply lookup_insert_eq.
  repeat split; apply attr_value_Some; simpl.
  - exists l1. split; [by simplify_map_eq|]. eauto using lookup_weaken.
  - exists l2. split; [by simplify_map_eq|]. eauto using lookup_weaken.
  - exists l3. split; [by simplify_map_eq|]. eauto using lookup_weaken.
  - exists l4. split; [by simplify_map_eq|]. done.
Qed.

Lemma make_data_dict_spec m s :
  loaded m s →
  ∃ lc lx ly lc1,
    clean_data s !! "county" = Some lc ∧
    clean_data s !! "floor_measure" = Some lx ∧
    clean_data s !! "log_radon" = Some ly ∧
    heap s !! lc1 = None ∧
    make_data_dict s =
      (inr (data_dict_of (Z.of_nat (length (v_log_radon m))) lc1 lx ly),
       mk_PyState (<[lc1:=IntArray (stan_county (v_county m))]> (heap s))
                  (clean_data s) (trace s) (world s)).
Proof.
  intros (Hy & Hc & Hx & _).
  apply attr_value_Some in Hy as (ly & Ay & Oy).
  apply attr_value_Some in Hc as (lc & Ac & Oc).
  apply attr_value_Some in Hx as (lx & Ax & Ox).
  exists lc, lx, ly, (fresh (dom (heap s))).
  repeat (split; [done || apply alloc_fresh|]).
  unfold make_data_dict, py_bind, py_len, np_add_scalar, py_bind, getattr,
    deref, alloc, py_ret.
  rewrite Ay, Oy, Ac, Oc. simpl. rewrite Ax. simpl. rewrite Ay. reflexivity.
Qed.

Lemma emits_bind_module Φ m : emits Φ (bind_module m).
Proof.
  intros s r s' Hr. destruct (bind_module_spec m s) as (s2 & E & _ & T & _).
  rewrite E in Hr. inversion Hr; subst. exists []. by rewrite app_nil_r.
Qed.

Lemma propagates_bind_module m : propagates (bind_module m).
Proof.
  apply propagates_silent. intros s r s' Hr.
  destruct (bind_module_spec m s) as (s2 & E & _ & T & _).
  rewrite E in Hr. by inversion Hr; subst.
Qed.

#[local] Hint Resolve emits_bind_module propagates_bind_module : py.

(** Breaks a goal about a computation of the notebook into its primitives. *)
Ltac py_split :=
  py_unfold;
  repeat first
    [ progress intros
    | match goal with
      | |- context [bar_call ?p] => is_var p; destruct p as [[? ?] ?]
      end
    | simple apply emits_bind_module | simple apply propagates_bind_module
    | apply emits_bind | apply propagates_bind | apply preserves_bind
    | apply emits_for | apply propagates_for | apply preserves_for
    | apply emits_external; intros; vm_compute; exact I
    | solve [eauto with py]
    | match goal with
      | |- context [match ?x with _ => _ end] => destruct x
      end ].

Lemma cell1_kinds : emits (of_kinds [KSetup; KLoad]) cell1.
Proof. py_split. Qed.

Lemma cell12_kinds : emits (of_kinds [KSample]) cell12.
Proof. py_split. Qed.

Lemma cell14_kinds fit : emits (of_kinds [KExtract; KReport]) (cell14 fit).
Proof. py_split. Qed.

Lemma cell16_kinds est se : emits (of_kinds [KReport]) (cell16 est se).
Proof. py_split. Qed.

Lemma cell1_propagates : propagates cell1.
Proof. py_split. Qed.

Lemma cell12_propagates : propagates cell12.
Proof. py_split. Qed.

Lemma cell14_propagates fit : propagates (cell14 fit).
Proof. py_split. Qed.

Lemma cell16_propagates est se : propagates (cell16 est se).
Proof. py_split. Qed.

Lemma cell12_preserves : preserves cell12.
Proof. py_split. Qed.

Lemma cell14_preserves fit : preserves (cell14 fit).
Proof. py_split. Qed.

Lemma cell16_preserves est se : preserves (cell16 est se).
Proof. py_split. Qed.

Lemma py_bind_ok_inv {A B} (m : Py A) (k : A → Py B) s y s' :
  py_bind m k s = (inr y, s') →
  ∃ x s1, m s = (inr x, s1) ∧ k x s1 = (inr y, s').
Proof.
  intros Hr. apply py_bind_inv in Hr as [(e & _ & [=])|Hr]. done.
Qed.

Lemma external_ok_inv {A} c (h : gmap loc (Obj F) → W → (Exn + A) * W) inj s x s' :
  external c h inj s = (inr x, s') →
  ∃ w, h (heap s) (world s) = (inr x, w) ∧ s' = log c (Returned (inj x)) w s.
Proof. intros Hr. apply external_inv in Hr as (w & o & ? & -> & ->). eauto. Qed.

Lemma getattr_ok_inv name s l s' :
  getattr name s = (inr l, s') → clean_data s !! name = Some l ∧ s' = s.
Proof.
  unfold getattr. destruct (clean_data s !! name); intros Hr; by inversion Hr.
Qed.

Lemma deref_ok_inv l s o s' :
  deref l s = (inr o, s') → heap s !! l = Some o ∧ s' = s.
Proof. unfold deref. destruct (heap s !! l); intros Hr; by inversion Hr. Qed.

(** Runs a computation that returned, one primitive at a time. *)
Ltac py_exec :=
  repeat match goal with
  | H : py_bind _ _ _ = (inr _, _) |- _ =>
      let x := fresh "x" in let s := fresh "s" in let E := fresh "E" in
      apply py_bind_ok_inv in H as (x & s & E & H)
  | H : external_unit _ _ = (inr _, _) |- _ => unfold external_unit in H
  | H : external _ _ _ _ = (inr _, _) |- _ =>
      let w := fresh "w" in let E := fresh "E" in
      apply external_ok_inv in H as (w & E & ->)
  | H : getattr _ _ = (inr _, _) |- _ =>
      let E := fresh "E" in apply getattr_ok_inv in H as (E & ->)
  | H : deref _ _ = (inr _, _) |- _ =>
      let E := fresh "E" in apply deref_ok_inv in H as (E & ->)
  | H : py_ret _ _ = (_, _) |- _ => inversion H; subst; clear H
  | H : py_raise _ _ = (inr _, _) |- _ => by inversion H
  | H : py_lift _ _ = (inr _, _) |- _ =>
      let E := fresh "E" in
      assert (E := f_equal fst H); assert (E' := f_equal snd H);
      unfold py_lift in E, E'; simpl in E, E'; subst; clear H
  end.

(** Two lookups of one key give one value. *)
Ltac py_same :=
  repeat match goal with
  | E1 : ?x = Some ?a, E2 : ?x = Some ?b |- _ =>
      assert (a = b) by congruence; subst; clear E2
  | E1 : ?x = inr ?a, E2 : ?x = inr ?b |- _ =>
      assert (a = b) by congruence; subst; clear E2
  end.

Lemma cell1_ok s u s1 :
  cell1 s = (inr u, s1) →
  ∃ m, trace s1 = trace s ++ setup_calls m ∧ loaded m s1.
Proof.
  unfold cell1, import_clean_data. intros Hr. py_exec.
  match goal with
  | E : bind_module ?m ?s0 = (inr _, ?s') |- _ =>
      destruct (bind_module_spec m s0) as (s2 & Es & L & T & _);
      rewrite E in Es; inversion Es; subst s2; clear Es;
      exists m; split;
      [ simpl; rewrite T; simpl; by rewrite <- !(assoc_L (++))
      | eapply loaded_stable; [| |exact L]; done ]
  end.
Qed.

(** Runs a computation to wherever it stops; one goal per stopping point. *)
Ltac py_run :=
  repeat match goal with
  | H : py_bind _ _ _ = (_, _) |- _ =>
      let e := fresh "e" in let x := fresh "x" in let s := fresh "s" in
      let E := fresh "E" in let R := fresh "R" in
      apply py_bind_inv in H as [(e & H & R)|(x & s & E & H)];
      [first [discriminate R|injection R as <-|subst]|]
  | H : external_unit _ _ = (_, _) |- _ => unfold external_unit in H
  | H : external _ _ _ _ = (_, _) |- _ =>
      let w := fresh "w" in let o := fresh "o" in let E := fresh "E" in
      apply external_inv in H as (w & o & E & -> & ->)
  | H : bind_module ?m ?s0 = (_, _) |- _ =>
      let s2 := fresh "s" in let Es := fresh "E" in let L := fresh "L" in
      let T := fresh "T" in
      destruct (bind_module_spec m s0) as (s2 & Es & L & T & _);
      rewrite H in Es; inversion Es; subst; clear Es H
  | H : py_ret _ _ = (_, _) |- _ => inversion H; subst; clear H
  end.

(** The membership of an entry in an explicit list of calls. *)
Ltac in_calls H :=
  repeat (apply elem_of_cons in H as [H|H]; [try discriminate H|]);
  try (by apply elem_of_nil in H).

Lemma cell1_spec s r s1 :
  cell1 s = (r, s1) →
  ∃ t, trace s1 = trace s ++ t ∧ ∀ m, load_entry m ∈ t → loaded m s1.
Proof.
  unfold cell1, import_clean_data, load_entry. intros Hr. py_run;
    (eexists; split;
     [ simpl; rewrite ?T; simpl; rewrite <- ?(assoc_L (++)); reflexivity
     | intros m Hin; in_calls Hin ]).
  inversion Hin; subst. eapply loaded_stable; [| |exact L]; done.
Qed.

Lemma dict_ok_stable m d s s' :
  heap s ⊆ heap s' → clean_data s' = clean_data s →
  dict_ok m d s → dict_ok m d s'.
Proof.
  intros Hh Hc (lc1 & lx & ly & lc & ? & ? & ? & ? & ? & ?).
  exists lc1, lx, ly, lc. rewrite Hc. repeat split; try done.
  by eapply lookup_weaken.
Qed.

Lemma cell12_spec m s r s2 :
  loaded m s → cell12 s = (r, s2) →
  ∃ d o, trace s2 = trace s ++ [(PystanStan (stan_kwargs d), o)] ∧
         dict_ok m d s2 ∧
         match r with
         | inr df => df.1 = d ∧ o = Returned (RFit df.2)
         | inl e => o = Raised e
         end.
Proof.
  intros L Hr.
  destruct (make_data_dict_spec m s L) as (lc & lx & ly & lc1 & Ac & Ax & Ay & Fr & E).
  unfold cell12 in Hr. rewrite (py_bind_ok _ _ _ _ _ E) in Hr.
  assert (lc ≠ lc1) as Hne.
  { destruct L as (_ & Hc & _). apply attr_value_Some in Hc as (l & Hl & Ho).
    intros <-. congruence. }
  unfold pystan_stan in Hr.
  py_run; eexists _, _; (split; [done|]); simpl; (split; [|done]);
    exists lc1, lx, ly, lc; simpl; repeat split; try done;
    apply lookup_insert_eq.
Qed.

Lemma cell14_ok m fit s est se s3 :
  loaded m s → cell14 fit s = (inr (est, se), s3) →
  ∃ a a', trace s3 = trace s ++ extract_calls fit a a' est ∧
          pd_Series (mean0 a) (v_mn_counties m) = inr est ∧
          pd_Series (std0 a') (v_mn_counties m) = inr se.
Proof.
  intros (_ & _ & _ & Hn) Hr.
  apply attr_value_Some in Hn as (ln & An & On).
  unfold cell14, fit_getitem, as_index in Hr.
  repeat (py_exec; simpl in *; py_same).
  eexists _, _. rewrite <- !(assoc_L (++)). done.
Qed.

Lemma cell14_getitems fit :
  emits (λ p, ∀ f k, p.1 = FitGetItem f k → f = fit ∧ k = "a") (cell14 fit).
Proof.
  unfold cell14, fit_getitem, as_index, external_unit.
  repeat first
    [ progress intros
    | apply emits_bind
    | apply emits_external; simpl; intros; by simplify_eq
    | solve [eauto with py]
    | match goal with
      | |- context [match ?x with _ => _ end] => destruct x
      end ].
Qed.

Lemma py_range_length n : length (py_range n) = n.
Proof. unfold py_range. by rewrite length_fmap, length_seq. Qed.

Lemma error_bars_ok xs s u s' :
  py_for xs error_bar s = (inr u, s') →
  trace s' = trace s ++ ((λ p, (bar_call p, Returned RNone)) <$> xs).
Proof.
  revert s. induction xs as [|p xs IH]; intros s Hr; simpl in Hr.
  - py_exec. by rewrite app_nil_r.
  - unfold error_bar in Hr at 1. py_exec. apply IH in Hr.
    rewrite Hr. simpl. by rewrite <- (assoc_L (++)).
Qed.

Lemma cell16_ok est se s o s4 :
  cell16 est se s = (inr o, s4) →
  o = s_index (sort_values est) ∧
  ∃ ys ses, getitem_labels est o = inr ys ∧ getitem_labels se o = inr ses ∧
            length (s_values ys) = s_len est ∧
            trace s4 = trace s ++ figure_calls (s_len est) ys ses.
Proof.
  unfold cell16, plt_scatter. intros Hr.
  repeat (py_exec; simpl in *).
  match goal with
  | E : py_for _ _ _ = _ |- _ => apply error_bars_ok in E; simpl in E
  end.
  match goal with
  | E : (if decide (?a = ?b) then _ else _) = _ |- _ =>
      destruct (decide (a = b)) as [Hlen|]; [|done]
  end.
  rewrite py_range_length in Hlen.
  py_same. split; [done|]. eexists _, _. repeat (split; [done|]).
  unfold figure_calls.
  match goal with E : trace _ = _ |- _ => rewrite E end.
  rewrite <- !(assoc_L (++)). done.
Qed.

(** Cell 1 stops only where a call raised. *)
Lemma cell1_stops s e s1 :
  cell1 s = (inl e, s1) → ∃ t0 c, trace s1 = trace s ++ t0 ++ [(c, Raised e)].
Proof.
  unfold cell1, import_clean_data. intros Hr. py_run;
    simpl; rewrite ?T; simpl; rewrite <- ?(assoc_L (++)); simpl;
    match goal with
    | |- ∃ t0 c, _ ++ ?l = _ => exists (removelast l); eexists; reflexivity
    end.
Qed.

Lemma emits_and {A} Φ Ψ (m : Py A) :
  emits Φ m → emits Ψ m → emits (λ p, Φ p ∧ Ψ p) m.
Proof.
  intros H1 H2 s r s' Hr.
  destruct (H1 _ _ _ Hr) as (t & E & Ft), (H2 _ _ _ Hr) as (t' & E' & Ft').
  rewrite E in E'. apply app_inv_head in E' as <-.
  exists t. split; [done|]. apply Forall_and. done.
Qed.

Lemma emits_weaken {A} (Φ Ψ : Call * Outcome → Prop) (m : Py A) :
  (∀ p, Φ p → Ψ p) → emits Φ m → emits Ψ m.
Proof.
  intros HΦ Hm s r s' Hr. destruct (Hm _ _ _ Hr) as (t & E & Ft).
  exists t. split; [done|]. eapply Forall_impl; eauto.
Qed.

Lemma cell14_after fit : emits (after_sampling fit) (cell14 fit).
Proof. apply emits_and; [apply cell14_kinds|apply cell14_getitems]. Qed.

Lemma cell16_after fit est se : emits (after_sampling fit) (cell16 est se).
Proof.
  eapply emits_weaken; [|apply cell16_kinds].
  intros [c o] Hk. split.
  - unfold of_kinds in *. simpl in *.
    destruct (kind_of c); by vm_compute in Hk |- *.
  - simpl. intros f k ->. done.
Qed.

Lemma notebook_spec w r s :
  notebook (init_state w) = (r, s) →
  ∃ t1 t2 t3, trace s = t1 ++ t2 ++ t3 ∧ run_shape s t1 t2 t3.
Proof.
  unfold notebook. intros Hr.
  apply py_bind_inv in Hr as [(e & Hr & ->)|(u & s1 & H1 & Hr)].
  { destruct (cell1_spec _ _ _ Hr) as (t & E & L).
    destruct (cell1_kinds _ _ _ Hr) as (t' & E' & K).
    rewrite E in E'. apply app_inv_head in E' as <-.
    destruct (cell1_stops _ _ _ Hr) as (t0 & c & E').
    rewrite E in E'. apply app_inv_head in E' as ->.
    eexists _, [], []. rewrite !app_nil_r. split; [done|]. split; [done|].
    split; [done|]. left. repeat split. eauto. }
  destruct (cell1_ok _ _ _ H1) as (m & E1 & L1). simpl in E1.
  assert (Forall (of_kinds [KSetup; KLoad]) (setup_calls m)) as K1.
  { repeat constructor. }
  assert (load_entry m ∈ setup_calls m) as Hm.
  { unfold setup_calls, load_entry. set_solver. }
  assert (∀ m', load_entry m' ∈ setup_calls m → m' = m) as Hm'.
  { unfold setup_calls, load_entry. intros m' Hin. in_calls Hin. by simplify_eq. }
  apply py_bind_inv in Hr as [(e & Hr & ->)|([d fit] & s2 & H2 & Hr)].
  { destruct (cell12_spec _ _ _ _ L1 Hr) as (d & o & E2 & D & ->).
    destruct (cell12_preserves _ _ _ Hr) as [S2 C2].
    exists (setup_calls m), [(PystanStan (stan_kwargs d), Raised e)], [].
    rewrite E2, E1. split; [done|]. split; [done|]. split.
    - intros m' ->%Hm'. by eapply loaded_stable.
    - right. by exists m, d, (Raised e). }
  destruct (cell12_spec _ _ _ _ L1 H2) as (d' & o & E2 & D & <- & ->). simpl in *.
  destruct (cell12_preserves _ _ _ H2) as [S2 C2].
  assert (loaded m s2) as L2 by by eapply loaded_stable.
  apply py_bind_inv in Hr as [(e & Hr & ->)|([est se] & s3 & H3 & Hr)].
  { destruct (cell14_after _ _ _ _ Hr) as (t3 & E3 & K3).
    destruct (cell14_preserves _ _ _ _ Hr) as [S3 C3].
    exists (setup_calls m), [(PystanStan (stan_kwargs d), Returned (RFit fit))], t3.
    rewrite E3, E2, E1. rewrite <- (assoc_L (++)). split; [done|].
    split; [done|]. split.
    - intros m' ->%Hm'. by eapply loaded_stable.
    - right. exists m, d, (Returned (RFit fit)).
      repeat split; [done|by eapply dict_ok_stable|by exists fit]. }
  destruct (cell14_after _ _ _ _ H3) as (t3 & E3 & K3).
  destruct (cell14_preserves _ _ _ _ H3) as [S3 C3]. simpl in Hr.
  assert (∃ r4, cell16 est se s3 = (r4, s)) as (r4 & H4).
  { apply py_bind_inv in Hr as [(e & Hr & ->)|(o & s4 & H4 & Hr)]; [eauto|].
    inversion Hr; subst. eauto. }
  destruct (cell16_after fit _ _ _ _ _ H4) as (t4 & E4 & K4).
  destruct (cell16_preserves _ _ _ _ _ H4) as [S4 C4].
  exists (setup_calls m), [(PystanStan (stan_kwargs d), Returned (RFit fit))], (t3 ++ t4).
  rewrite E4, E3, E2, E1. rewrite <- !(assoc_L (++)). split; [done|].
  split; [done|]. split.
  - intros m' ->%Hm'. eapply loaded_stable; [| |exact L2]; [by etrans|congruence].
  - right. exists m, d, (Returned (RFit fit)).
    repeat split; [done| |exists fit; split; [done|by apply Forall_app]].
    eapply dict_ok_stable; [| |exact D]; [by etrans|congruence].
Qed.

Lemma notebook_ok w ns s :
  notebook (init_state w) = (inr ns, s) →
  ∃ m a a' ys ses,
    trace s = run_calls ns m a a' ys ses ∧ run_values ns m a a' ys ses ∧
    loaded m s ∧ dict_ok m (unpooled_data_dict ns) s.
Proof.
  unfold notebook. intros Hr.
  apply py_bind_ok_inv in Hr as (u & s1 & H1 & Hr).
  apply py_bind_ok_inv in Hr as ([d fit] & s2 & H2 & Hr).
  apply py_bind_ok_inv in Hr as ([est se] & s3 & H3 & Hr).
  apply py_bind_ok_inv in Hr as (o & s4 & H4 & Hr).
  inversion Hr; subst; clear Hr. simpl in *.
  destruct (cell1_ok _ _ _ H1) as (m & E1 & L1). simpl in E1.
  destruct (cell12_spec _ _ _ _ L1 H2) as (d' & o' & E2 & D & <- & ->). simpl in *.
  destruct (cell12_preserves _ _ _ H2) as [S2 C2].
  assert (loaded m s2) as L2 by by eapply loaded_stable.
  destruct (cell14_ok _ _ _ _ _ _ L2 H3) as (a & a' & E3 & V1 & V2).
  destruct (cell14_preserves _ _ _ _ H3) as [S3 C3].
  destruct (cell16_ok _ _ _ _ _ H4) as (-> & ys & ses & G1 & G2 & Hl & E4).
  destruct (cell16_preserves _ _ _ _ _ H4) as [S4 C4].
  exists m, a, a', ys, ses. split; [|split; [|split]].
  - unfold run_calls. simpl. rewrite E4, E3, E2, E1.
    by rewrite <- !(assoc_L (++)).
  - by repeat split.
  - eapply loaded_stable; [| |exact L2]; [by etrans|congruence].
  - eapply dict_ok_stable; [| |exact D]; [by etrans|congruence].
Qed.

Lemma reduce_rows_lookup j (rs : list (list F)) (acc : list F) x :
  Forall (λ r, j < length r) rs → acc !! j = Some x →
  fold_left (zip_with f_add) rs acc !! j =
    Some (fold_left f_add (omap (λ r, r !! j) rs) x).
Proof.
  revert acc x. induction rs as [|r rs IH]; intros acc x Hrs Hacc; simpl.
  - done.
  - apply Forall_cons in Hrs as [Hr Hrs].
    destruct (lookup_lt_is_Some_2 r j Hr) as [y Hy]. rewrite Hy. simpl.
    apply IH; [done|]. rewrite lookup_zip_with, Hacc. simpl. by rewrite Hy.
Qed.

Lemma rectangular_lt (a : ndarray2 F) j :
  rectangular a → j < ncols a → Forall (λ r, j < length r) (rows a).
Proof. unfold rectangular. intros Hr Hj. eapply Forall_impl; [exact Hr|]. simpl. lia. Qed.

Lemma sum0_lookup c j (rs : list (list F)) :
  j < c → Forall (λ r, j < length r) rs →
  sum0 c rs !! j = Some (fsum (omap (λ r, r !! j) rs)).
Proof.
  intros Hj Hrs. unfold sum0, fsum. apply reduce_rows_lookup; [done|].
  by apply lookup_replicate_2.
Qed.

Lemma mean0_lookup (a : ndarray2 F) j :
  rectangular a → j < ncols a →
  mean0 a !! j = Some (mean_of (nrows a) (column j a)).
Proof.
  intros Hr Hj. unfold mean0, mean_of, column.
  rewrite list_lookup_fmap, sum0_lookup; [done|done|by apply rectangular_lt].
Qed.

Lemma reduce_rows_length (rs : list (list F)) (acc : list F) :
  Forall (λ r : list F, length r = length acc) rs →
  length (fold_left (zip_with f_add) rs acc) = length acc.
Proof.
  revert acc. induction rs as [|r rs IH]; intros acc Hrs; simpl; [done|].
  apply Forall_cons in Hrs as [Hr' Hrs].
  rewrite IH; rewrite length_zip_with; [lia|].
  eapply Forall_impl; [exact Hrs|]. simpl. lia.
Qed.

Lemma mean0_length (a : ndarray2 F) :
  rectangular a → length (mean0 a) = ncols a.
Proof.
  intros Hr. unfold mean0, sum0, np_zeros. rewrite length_fmap.
  rewrite reduce_rows_length; rewrite length_replicate; done.
Qed.

Lemma std0_length (a : ndarray2 F) :
  rectangular a → length (std0 a) = ncols a.
Proof.
  intros Hr. unfold std0, sum0, np_zeros. rewrite !length_fmap.
  rewrite reduce_rows_length; rewrite length_replicate; [done|].
  apply Forall_fmap, Forall_fmap. eapply Forall_impl; [exact Hr|].
  intros r Hlen. simpl in *.
  rewrite length_fmap, length_zip_with, (mean0_length a Hr). lia.
Qed.

Lemma omap_lookup_fmap j (g : list F → list F) (h : F → F) (rs : list (list F)) :
  Forall (λ r, g r !! j = h <$> r !! j) rs →
  omap (λ r, r !! j) (g <$> rs) = h <$> omap (λ r, r !! j) rs.
Proof.
  induction 1 as [|r rs Hr _ IH]; csimpl; [done|].
  rewrite Hr. destruct (r !! j); csimpl; by rewrite IH.
Qed.

Lemma std0_lookup (a : ndarray2 F) j :
  rectangular a → j < ncols a →
  std0 a !! j = Some (std_of (nrows a) (column j a)).
Proof.
  intros Hr Hj. unfold std0, std_of.
  pose proof (mean0_lookup a j Hr Hj) as Hm.
  set (mj := mean_of (nrows a) (column j a)) in *.
  set (g := λ r : list F, (λ v, f_mul v v) <$> zip_with f_sub r (mean0 a)).
  set (h := λ v : F, f_mul (f_sub v mj) (f_sub v mj)).
  rewrite <- (list_fmap_compose _ _ (rows a)).
  change (_ ∘ _) with g.
  assert (Forall (λ r, g r !! j = h <$> r !! j) (rows a)) as Hg.
  { eapply Forall_impl; [exact Hr|]. intros r Hlen. unfold g, h.
    rewrite list_lookup_fmap, lookup_zip_with, Hm.
    by destruct (r !! j). }
  rewrite !list_lookup_fmap, sum0_lookup; [|done|].
  - rewrite (omap_lookup_fmap j g h) by done. rewrite Nat.sub_0_r. done.
  - apply Forall_fmap. eapply Forall_impl; [exact Hr|]. intros r Hlen. simpl.
    unfold g. rewrite length_fmap, length_zip_with, (mean0_length a Hr).
    simpl in Hlen. lia.
Qed.

Lemma pd_Series_inv (data : list F) index sr :
  pd_Series data index = inr sr →
  length data = length index ∧ s_items sr = zip index data.
Proof. unfold pd_Series. case_decide; intros [= <-]; done. Qed.

Lemma filter_label_unique (items : list (string * F)) l v :
  NoDup items.*1 → (l, v) ∈ items →
  filter (λ p, p.1 = l) items = [(l, v)].
Proof.
  induction items as [|p items IH]; intros Hnd Hin.
  - by apply elem_of_nil in Hin.
  - rewrite fmap_cons in Hnd. apply NoDup_cons in Hnd as [Hp Hnd].
    apply elem_of_cons in Hin as [<-|Hin].
    + rewrite filter_cons_True by done. f_equal.
      destruct (filter (λ p, p.1 = l) items) as [|q qs] eqn:Eq; [done|].
      exfalso. apply Hp.
      assert (q ∈ filter (λ p, p.1 = l) items) as Hq by (rewrite Eq; left).
      apply list_elem_of_filter in Hq as [<- Hq].
      apply list_elem_of_fmap. by exists q.
    + rewrite filter_cons_False; [by apply IH|].
      intros Hl. apply Hp. rewrite Hl. apply list_elem_of_fmap. by exists (l, v).
Qed.

Lemma getitem_unique (items : list (string * F)) (labels : list string) :
  NoDup items.*1 → Forall (λ l, l ∈ items.*1) labels →
  Forall2 (λ l p, p.1 = l ∧ p ∈ items) labels
          (labels ≫= λ l, filter (λ p, p.1 = l) items).
Proof.
  intros Hnd. induction 1 as [|l labels Hl _ IH]; [constructor|].
  rewrite bind_cons.
  apply list_elem_of_fmap in Hl as ([l' v] & -> & Hin). simpl.
  rewrite (filter_label_unique items l' v) by done. simpl.
  constructor; [done|exact IH].
Qed.

Lemma reorder_permuted (items sorted : list (string * F)) :
  NoDup items.*1 → sorted ≡ₚ items →
  sorted.*1 ≫= (λ l, filter (λ p, p.1 = l) items) = sorted.
Proof.
  intros Hnd Hp.
  assert (Forall (λ p, p ∈ items) sorted) as Hall.
  { apply Forall_forall. intros p Hin. by rewrite <- Hp. }
  clear Hp. induction Hall as [|[l v] sorted Hin _ IH]; [done|].
  rewrite fmap_cons, bind_cons. simpl.
  rewrite (filter_label_unique items l v) by done. simpl. by rewrite IH.
Qed.

Lemma bind_length_ge (items : list (string * F)) (labels : list string) :
  Forall (λ l, l ∈ items.*1) labels →
  length labels ≤ length (labels ≫= λ l, filter (λ p, p.1 = l) items) ∧
  (length (labels ≫= λ l, filter (λ p, p.1 = l) items) = length labels →
   Forall (λ l, length (filter (λ p, p.1 = l) items) = 1) labels).
Proof.
  induction 1 as [|l labels Hl _ [IH1 IH2]]; [by split; [|constructor]|].
  rewrite bind_cons, length_app. simpl.
  assert (1 ≤ length (filter (λ p, p.1 = l) items)) as Hge.
  { apply list_elem_of_fmap in Hl as (q & -> & Hq).
    assert (q ∈ filter (λ p, p.1 = q.1) items) as Hin
      by by apply list_elem_of_filter.
    destruct (filter _ items); [by apply elem_of_nil in Hin|simpl; lia]. }
  split; [lia|]. intros Heq. constructor; [lia|]. apply IH2. lia.
Qed.

Lemma NoDup_labels (items : list (string * F)) :
  Forall (λ l, length (filter (λ p, p.1 = l) items) = 1) items.*1 →
  NoDup items.*1.
Proof.
  induction items as [|q items IH]; intros Hc; [constructor|].
  rewrite fmap_cons in *. apply Forall_cons in Hc as [Hq Hc].
  rewrite filter_cons_True in Hq by done. simpl in Hq.
  assert (filter (λ p, p.1 = q.1) items = []) as Hnil
    by (apply nil_length_inv; lia).
  assert (q.1 ∉ items.*1) as Hfresh.
  { intros Hin. apply list_elem_of_fmap in Hin as (p & Hp & Hin).
    assert (p ∈ filter (λ p, p.1 = q.1) items) as Hf
      by by apply list_elem_of_filter.
    rewrite Hnil in Hf. by apply elem_of_nil in Hf. }
  constructor; [done|].
  apply IH. apply Forall_forall. intros l Hl.
  rewrite Forall_forall in Hc. specialize (Hc l Hl).
  destruct (decide (q.1 = l)) as [<-|Hql]; [done|].
  by rewrite filter_cons_False in Hc.
Qed.

Lemma getitem_labels_inv (sr : Series F) labels r :
  getitem_labels sr labels = inr r →
  Forall (λ l, l ∈ s_index sr) labels ∧
  s_items r = labels ≫= lookup_label sr.
Proof. unfold getitem_labels. case_decide; intros [= <-]; done. Qed.

Lemma insert_by_value_perm p (l : list (string * F)) :
  insert_by_value p l ≡ₚ p :: l.
Proof.
  induction l as [|q l IH]; simpl; [done|]. case_decide; [done|].
  by rewrite IH, Permutation_swap.
Qed.

Section Sorting.

Context `{!Float64Order F}.

Global Instance by_value_total : Total by_value.
Proof.
  intros [l x] [l' y]. unfold by_value, f_le_nan_last. simpl.
  destruct (f_isnan y) eqn:Ny; [by left|].
  destruct (f_isnan x) eqn:Nx; [by right|]. simpl.
  by apply f_leb_total.
Qed.

Global Instance by_value_trans : Transitive by_value.
Proof.
  intros [l x] [l' y] [l'' z]. unfold by_value, f_le_nan_last. simpl.
  destruct (f_isnan z); [done|]. destruct (f_isnan y); [done|].
  destruct (f_isnan x); [done|]. simpl. apply f_leb_trans.
Qed.

Lemma insert_by_value_sorted p (l : list (string * F)) :
  StronglySorted by_value l → StronglySorted by_value (insert_by_value p l).
Proof.
  induction 1 as [|q l Hl IH Hq]; simpl; [by repeat constructor|].
  case_decide as Hpq.
  - constructor; [by constructor|]. constructor; [done|].
    eapply Forall_impl; [exact Hq|]. intros r Hr. by etrans.
  - constructor; [done|]. rewrite insert_by_value_perm.
    constructor; [|done]. by destruct (total by_value p q).
Qed.

Lemma sort_values_sorted (sr : Series F) :
  StronglySorted f_le_nan_last (s_values (sort_values sr)).
Proof.
  unfold s_values, sort_values. simpl.
  apply (StronglySorted_fmap _ by_value); [by intros p q|].
  induction (s_items sr) as [|p l IH]; simpl; [constructor|].
  by apply insert_by_value_sorted.
Qed.

End Sorting.

(** In a sequence in that order, the numbers are nondecreasing. *)
Lemma numbers_sorted (vs : list F) :
  StronglySorted f_le_nan_last vs →
  StronglySorted f_le (filter is_number vs).
Proof.
  induction 1 as [|x vs _ IH Hx]; [constructor|].
  destruct (decide (is_number x)) as [Nx|Nx].
  - rewrite filter_cons_True by done. constructor; [done|].
    apply Forall_forall. intros y [Ny Hy]%list_elem_of_filter.
    rewrite Forall_forall in Hx. specialize (Hx y Hy).
    unfold f_le_nan_last, is_number, f_le in *. rewrite Ny, Nx in Hx. done.
  - by rewrite filter_cons_False.
Qed.

(** And the NaNs come after the numbers. *)
Lemma nans_last (vs : list F) i k x y :
  StronglySorted f_le_nan_last vs →
  i < k → vs !! i = Some x → vs !! k = Some y → is_number y → is_number x.
Proof.
  intros Hs. revert i k. induction Hs as [|v vs _ IH Hv]; intros i k Hik Hi Hk Ny.
  - done.
  - destruct k as [|k]; [lia|]. simpl in Hk. destruct i as [|i].
    + injection Hi as ->. rewrite Forall_forall in Hv.
      specialize (Hv y (list_elem_of_lookup_2 _ _ _ Hk)).
      unfold f_le_nan_last, is_number in *. rewrite Ny in Hv. simpl in Hv.
      by destruct (f_isnan x).
    + simpl in Hi. eapply (IH i k); [lia|done..].
Qed.

Lemma sort_values_perm (sr : Series F) :
  s_items (sort_values sr) ≡ₚ s_items sr.
Proof.
  unfold sort_values. simpl.
  induction (s_items sr) as [|p l IH]; simpl; [done|].
  by rewrite insert_by_value_perm, IH.
Qed.

Lemma run_values_summaries ns m a a' ys ses :
  run_values ns m a a' ys ses → run_summaries ns m a a' ys ses.
Proof.
  intros (V1 & V2 & Ho & G1 & G2 & Hl). repeat (split; [done|]).
  split; [|done]. rewrite Ho. apply pd_Series_inv in V1 as [Lm Em].
  unfold s_index. rewrite sort_values_perm, Em. by rewrite fst_zip by lia.
Qed.

(** What the reordering of cell 16 gives when the scatter plot accepts it:
    the county names are distinct, the estimates come in sorted order, and
    every standard error keeps the label of its position. *)
Lemma reordered (names : list string) (means stds : list F) est se ys ses :
  pd_Series means names = inr est → pd_Series stds names = inr se →
  getitem_labels est (s_index (sort_values est)) = inr ys →
  getitem_labels se (s_index (sort_values est)) = inr ses →
  length (s_values ys) = s_len est →
  NoDup names ∧
  ys = sort_values est ∧
  Forall2 (λ l p, p.1 = l ∧ p ∈ s_items se) (s_index ys) (s_items ses).
Proof.
  intros [Lm Em]%pd_Series_inv [Ls Es]%pd_Series_inv
    [Fy Ey]%getitem_labels_inv [Fs Esr]%getitem_labels_inv Hlen.
  unfold lookup_label in *.
  assert (s_index est = names) as In1
    by (unfold s_index; rewrite Em; apply fst_zip; lia).
  assert (s_index se = names) as In2
    by (unfold s_index; rewrite Es; apply fst_zip; lia).
  assert (s_index (sort_values est) ≡ₚ names) as Hp.
  { rewrite <- In1. unfold s_index. by rewrite sort_values_perm. }
  assert (NoDup names) as Hnd.
  { rewrite <- In1. unfold s_index. apply NoDup_labels.
    assert (Forall (λ l, l ∈ (s_items est).*1) (s_items est).*1) as Hall
      by (apply Forall_forall; auto).
    apply (bind_length_ge (s_items est)) in Hall as [_ Hall]. apply Hall.
    unfold s_values in Hlen. rewrite length_fmap, Ey in Hlen.
    rewrite length_fmap. unfold s_len in Hlen. rewrite <- Hlen.
    apply Permutation_length. apply bind_Permutation.
    fold (s_index est). by rewrite In1, Hp. }
  assert (s_items ys = s_items (sort_values est)) as Hys.
  { rewrite Ey. apply reorder_permuted; [|apply sort_values_perm].
    fold (s_index est). by rewrite In1. }
  split; [done|]. split.
  - destruct ys, (sort_values est). simpl in *. by f_equal.
  - unfold s_index at 1. rewrite Hys. fold (s_index (sort_values est)).
    rewrite Esr. apply getitem_unique.
    + fold (s_index se). by rewrite In2.
    + done.
Qed.

Lemma notebook_propagates : propagates notebook.
Proof.
  unfold notebook.
  repeat first
    [ progress intros
    | simple apply cell1_propagates | simple apply cell12_propagates
    | simple apply cell14_propagates | simple apply cell16_propagates
    | simple apply propagates_ret
    | apply propagates_bind ].
Qed.

(** *** Where a run can stop *)

Lemma notebook_inv s0 r s :
  notebook s0 = (r, s) →
  (∃ e, cell1 s0 = (inl e, s) ∧ r = inl e) ∨
  ∃ u s1, cell1 s0 = (inr u, s1) ∧
    ((∃ e, cell12 s1 = (inl e, s) ∧ r = inl e) ∨
     ∃ d fit s2, cell12 s1 = (inr (d, fit), s2) ∧
       ((∃ e, cell14 fit s2 = (inl e, s) ∧ r = inl e) ∨
        ∃ est se s3, cell14 fit s2 = (inr (est, se), s3) ∧
          ∃ r4, cell16 est se s3 = (r4, s) ∧
                r = match r4 with
                    | inl e => inl e
                    | inr o => inr (mk_Namespace d fit est se o)
                    end)).
Proof.
  unfold notebook. intros Hr.
  apply py_bind_inv in Hr as [(e & Hr & ->)|(u & s1 & H1 & Hr)]; [eauto|].
  right. exists u, s1. split; [done|].
  apply py_bind_inv in Hr as [(e & Hr & ->)|([d fit] & s2 & H2 & Hr)]; [eauto|].
  right. exists d, fit, s2. split; [done|]. simpl in Hr.
  apply py_bind_inv in Hr as [(e & Hr & ->)|([est se] & s3 & H3 & Hr)]; [eauto|].
  right. exists est, se, s3. split; [done|]. simpl in Hr.
  apply py_bind_inv in Hr as [(e & Hr & ->)|(o & s4 & H4 & Hr)].
  - by exists (inl e).
  - inversion Hr; subst. by exists (inr o).
Qed.

(** Cell 14, wherever it stops. *)
Lemma cell14_spec m fit s r s3 :
  loaded m s → cell14 fit s = (r, s3) →
  (∃ e, r = inl e ∧ trace s3 = trace s ++ [(FitGetItem fit "a", Raised e)]) ∨
  (∃ a e, r = inl e ∧
     trace s3 = trace s ++ [(FitGetItem fit "a", Returned (RArray a))] ∧
     pd_Series (mean0 a) (v_mn_counties m) = inl e) ∨
  (∃ a est e, r = inl e ∧
     trace s3 = trace s ++ [(FitGetItem fit "a", Returned (RArray a));
                            (FitGetItem fit "a", Raised e)] ∧
     pd_Series (mean0 a) (v_mn_counties m) = inr est) ∨
  (∃ a a' est e, r = inl e ∧
     trace s3 = trace s ++ [(FitGetItem fit "a", Returned (RArray a));
                            (FitGetItem fit "a", Returned (RArray a'))] ∧
     pd_Series (mean0 a) (v_mn_counties m) = inr est ∧
     pd_Series (std0 a') (v_mn_counties m) = inl e) ∨
  (∃ a a' est se e, r = inl e ∧
     trace s3 = trace s ++ [(FitGetItem fit "a", Returned (RArray a));
                            (FitGetItem fit "a", Returned (RArray a'));
                            (Display (head est), Raised e)] ∧
     pd_Series (mean0 a) (v_mn_counties m) = inr est ∧
     pd_Series (std0 a') (v_mn_counties m) = inr se) ∨
  (∃ a a' est se, r = inr (est, se) ∧
     trace s3 = trace s ++ extract_calls fit a a' est ∧
     pd_Series (mean0 a) (v_mn_counties m) = inr est ∧
     pd_Series (std0 a') (v_mn_counties m) = inr se).
Proof.
  intros (_ & _ & _ & Hn) Hr.
  apply attr_value_Some in Hn as (ln & An & On).
  unfold cell14, fit_getitem, as_index, external_unit, py_bind, external,
    getattr, deref, py_lift, py_ret in Hr. simpl in Hr.
  destruct (ext_getitem env fit "a" (heap s) (world s)) as [[e|a] w1]; simpl in Hr.
  { inversion Hr; subst. left. eauto. }
  rewrite An in Hr. simpl in Hr. rewrite On in Hr. simpl in Hr.
  destruct (pd_Series (mean0 a) (v_mn_counties m)) as [e|est] eqn:E1; simpl in Hr.
  { inversion Hr; subst. right; left. eauto. }
  destruct (ext_getitem env fit "a" (heap s) w1) as [[e|a'] w2]; simpl in Hr.
  { inversion Hr; subst. do 2 right; left. exists a, est, e. simpl.
    by rewrite <- (assoc_L (++)). }
  rewrite An in Hr. simpl in Hr. rewrite On in Hr. simpl in Hr.
  destruct (pd_Series (std0 a') (v_mn_counties m)) as [e|se] eqn:E2; simpl in Hr.
  { inversion Hr; subst. do 3 right; left. exists a, a', est, e. simpl.
    by rewrite <- (assoc_L (++)). }
  destruct (ext_unit env (Display (head est)) (heap s) w2) as [[e|u] w3];
    simpl in Hr; inversion Hr; subst.
  - do 4 right; left. exists a, a', est, se, e. simpl.
    by rewrite <- !(assoc_L (++)).
  - do 5 right. exists a, a', est, se. simpl. by rewrite <- !(assoc_L (++)).
Qed.

Lemma getitem_sorted_ok (est : Series F) :
  ∃ ys, getitem_labels est (s_index (sort_values est)) = inr ys.
Proof.
  unfold getitem_labels. rewrite decide_True; [eauto|].
  apply Forall_forall. intros l Hl. unfold s_index in *.
  by rewrite sort_values_perm in Hl.
Qed.

(** Cell 16 with a county name that occurs twice. *)
Lemma cell16_duplicates names (means : list F) est se s r s' :
  pd_Series means names = inr est → ¬ NoDup names →
  cell16 est se s = (r, s') →
  r = inl (PyExn "ValueError" "x and y must be the same size") ∧
  ∃ xs ys, length xs ≠ length ys ∧
    trace s' = trace s ++
      [(PltScatter xs ys, Raised (PyExn "ValueError" "x and y must be the same size"))].
Proof.
  intros Hest Hdup Hr. destruct (getitem_sorted_ok est) as [ys Hys].
  unfold cell16 in Hr. unfold py_bind at 1, py_lift at 1 in Hr.
  rewrite Hys in Hr.
  apply py_bind_inv in Hr as [(e & Hr & ->)|(u & s1 & Hs & Hr)].
  - unfold plt_scatter in Hr. apply external_inv in Hr as (w & o & Hh & -> & ->).
    destruct (decide (length (py_range (s_len est)) = length (s_values ys)))
      as [Hlen|Hlen].
    + exfalso. apply Hdup. rewrite py_range_length in Hlen.
      by destruct (reordered names means means est est ys ys Hest Hest Hys Hys).
    + inversion Hh; subst. split; [done|]. eauto.
  - exfalso. unfold plt_scatter in Hs.
    apply external_inv in Hs as (w & o & Hh & -> & _).
    destruct (decide (length (py_range (s_len est)) = length (s_values ys)))
      as [Hlen|Hlen]; [|done].
    apply Hdup. rewrite py_range_length in Hlen.
    by destruct (reordered names means means est est ys ys Hest Hest Hys Hys).
Qed.

(** *** What raises in cell 16 *)

Lemma relays_ret {A} (x : A) : relays (py_ret x).
Proof. intros s e s' Hr. inversion Hr. Qed.

Lemma relays_returned {A} (x : A) : relays (py_lift (inr x)).
Proof. intros s e s' Hr. inversion Hr. Qed.

Lemma relays_external {A} c (h : gmap loc (Obj F) → W → (Exn + A) * W) inj :
  relays (external c h inj).
Proof.
  intros s e s' Hr. apply external_inv in Hr as (w & o & _ & -> & ->).
  by exists [], c.
Qed.

Lemma relays_bind {A B} (m : Py A) (k : A → Py B) :
  emits (λ _, True) m → relays m → (∀ x, relays (k x)) → relays (py_bind m k).
Proof.
  intros Em Hm Hk s e s' Hr.
  apply py_bind_inv in Hr as [(e' & Hr & [= <-])|(x & s1 & Hr & Hr')].
  - eauto.
  - destruct (Em _ _ _ Hr) as (t1 & E1 & _).
    destruct (Hk _ _ _ _ Hr') as (t0 & c & E2).
    exists (t1 ++ t0), c. by rewrite E2, E1, <- !(assoc_L (++)).
Qed.

Lemma relays_for {A} (xs : list A) body :
  (∀ x, emits (λ _, True) (body x)) → (∀ x, relays (body x)) →
  relays (py_for xs body).
Proof.
  intros Eb Hb. induction xs as [|x xs IH]; simpl.
  - apply relays_ret.
  - apply relays_bind; auto.
Qed.

Lemma getitem_sorted_same (est se : Series F) :
  s_index se = s_index est →
  ∃ ses, getitem_labels se (s_index (sort_values est)) = inr ses.
Proof.
  intros Hidx. unfold getitem_labels. rewrite decide_True; [eauto|].
  rewrite Hidx. apply Forall_forall. intros l Hl. unfold s_index in *.
  by rewrite sort_values_perm in Hl.
Qed.

Lemma pd_Series_index (data : list F) names sr :
  pd_Series data names = inr sr → s_index sr = names.
Proof.
  intros [Hl E]%pd_Series_inv. unfold s_index. rewrite E. apply fst_zip. lia.
Qed.

(** Cell 16 on the summaries of cell 14 raises only what a call raised: the
    reordering by label cannot fail. *)
Lemma cell16_relays names (means stds : list F) est se :
  pd_Series means names = inr est → pd_Series stds names = inr se →
  relays (cell16 est se).
Proof.
  intros He Hs.
  destruct (getitem_sorted_ok est) as [ys Hys].
  destruct (getitem_sorted_same est se) as [ses Hses].
  { by rewrite (pd_Series_index _ _ _ He), (pd_Series_index _ _ _ Hs). }
  unfold cell16. rewrite Hys, Hses.
  unfold plt_scatter, error_bar, external_unit.
  repeat first
    [ progress intros
    | simple apply relays_ret | simple apply relays_returned
    | simple apply relays_external
    | simple apply relays_for
    | simple apply relays_bind
    | simple apply emits_for
    | simple apply emits_bind
    | simple apply emits_external; intros; exact I
    | simple apply emits_lift | simple apply emits_ret ].
Qed.

(** The names of the dataset a run imported. *)
Lemma setup_calls_load m m' : load_entry m' ∈ setup_calls m → m' = m.
Proof.
  unfold setup_calls, load_entry. intros Hin. in_calls Hin. by simplify_eq.
Qed.


(** A run stops in cell 1 or 12, or it samples and goes on with cell 14. *)
Lemma notebook_stages w r s :
  notebook (init_state w) = (r, s) →
  (∃ e, r = inl e ∧ Forall (of_kinds [KSetup; KLoad; KSample]) (trace s)) ∨
  ∃ m d fit s2 r3 s3,
    trace s2 = setup_calls m ++
               [(PystanStan (stan_kwargs d), Returned (RFit fit))] ∧
    loaded m s2 ∧ cell14 fit s2 = (r3, s3) ∧
    match r3 with
    | inl e => r = inl e ∧ s = s3
    | inr es => loaded m s3 ∧
                ∃ r4, cell16 es.1 es.2 s3 = (r4, s) ∧
                      match r4 with
                      | inl e => r = inl e
                      | inr o => ∃ ns, r = inr ns
                      end
    end.
Proof.
  intros Hr. apply notebook_inv in Hr as [(e & H1 & ->)|(u & s1 & H1 & Hr)].
  { left. exists e. split; [done|].
    destruct (cell1_kinds _ _ _ H1) as (t & E & K). simpl in E. rewrite E.
    eapply Forall_impl; [exact K|]. intros [c o] Hk.
    unfold of_kinds in *. simpl in *. destruct (kind_of c); by vm_compute in Hk |- *. }
  destruct (cell1_ok _ _ _ H1) as (m & E1 & L1). simpl in E1.
  assert (Forall (of_kinds [KSetup; KLoad; KSample]) (setup_calls m)) as K1
    by repeat constructor.
  destruct Hr as [(e & H2 & ->)|(d & fit & s2 & H2 & Hr)].
  { left. exists e. split; [done|].
    destruct (cell12_spec _ _ _ _ L1 H2) as (d & o & E2 & _).
    rewrite E2, E1. apply Forall_app. split; [done|]. by repeat constructor. }
  destruct (cell12_spec _ _ _ _ L1 H2) as (d' & o & E2 & D & <- & ->). simpl in *.
  destruct (cell12_preserves _ _ _ H2) as [S2 C2].
  assert (loaded m s2) as L2 by by eapply loaded_stable.
  right. exists m, d, fit, s2.
  destruct Hr as [(e & H3 & ->)|(est & se & s3 & H3 & r4 & H4 & ->)].
  - exists (inl e), s. rewrite E2, E1. done.
  - exists (inr (est, se)), s3. rewrite E2, E1.
    destruct (cell14_preserves _ _ _ _ H3) as [S3 C3].
    split; [done|]. split; [done|]. split; [done|].
    split; [by eapply loaded_stable|].
    exists r4. split; [done|]. destruct r4; eauto.
Qed.

End Notebook.

(** ** Facts about whole runs *)

Lemma occurs_index pat text n : String.index 0 pat text = Some n → occurs pat text.
Proof. intros Hi. exists n. by apply String.index_correct1 in Hi. Qed.

Section Runs.

Context {F : Type} `{Float64 F} {Fit W : Type}.

Implicit Types (env : @Env F Fit W) (t : list (@Call F Fit * @Outcome F Fit)).

Lemma of_kinds_elem ks t p :
  Forall (of_kinds ks) t → p ∈ t → of_kinds ks p.
Proof. intros Hall Hin. rewrite Forall_forall in Hall. by apply Hall. Qed.

(** A call of a kind other than [ks] is not among calls of kinds [ks]. *)
Ltac other_kind K Hin :=
  apply (of_kinds_elem _ _ _ K) in Hin; by vm_compute in Hin.

Lemma after_sampling_kinds fit t :
  Forall (after_sampling fit) t → Forall (of_kinds [KExtract; KReport]) t.
Proof. intros Ha. eapply Forall_impl; [exact Ha|]. by intros p [? _]. Qed.

(** A call of the sampler in the log of a run: it is the call of cell 12. *)
Lemma stan_entry_inv env w r s kw o :
  notebook env (init_state w) = (r, s) → (PystanStan kw, o) ∈ trace s →
  ∃ m d, load_entry m ∈ trace s ∧ kw = stan_kwargs d ∧ dict_ok m d s ∧
         loaded m s ∧ stan_calls (trace s) = [kw].
Proof.
  intros Hr Hin. destruct (notebook_spec _ _ _ _ Hr) as (t1 & t2 & t3 & E & K1 & L & Hs).
  assert (stan_calls t1 = []) as S1.
  { unfold stan_calls. clear -K1. induction K1 as [|[c o'] t Hc _ IH]; [done|].
    csimpl. rewrite IH. destruct c; try done. }
  rewrite E in Hin |- *.
  destruct Hs as [(-> & -> & _)|(m & d & o' & Hm & -> & D & Ho)].
  - rewrite !app_nil_r in Hin. other_kind K1 Hin.
  - assert (Forall (of_kinds [KExtract; KReport]) t3) as K3.
    { destruct o' as [rep|e]; [|by subst].
      destruct Ho as (fit & _ & K3). by eapply after_sampling_kinds. }
    assert (stan_calls t3 = []) as S3.
    { unfold stan_calls. clear -K3. induction K3 as [|[c o''] t Hc _ IH]; [done|].
      csimpl. rewrite IH. destruct c; try done. }
    apply elem_of_app in Hin as [Hin|Hin];
      [other_kind K1 Hin|].
    apply elem_of_app in Hin as [Hin|Hin];
      [|other_kind K3 Hin].
    apply list_elem_of_singleton in Hin. injection Hin as -> ->.
    exists m, d. split; [set_solver|]. split; [done|]. split; [done|].
    split; [by apply L|].
    unfold stan_calls in *. by rewrite !omap_app, S1, S3.
Qed.

(** The import of [clean_data] in the log of a run: the dataset is still as
    the import left it. *)
Lemma load_entry_inv env w r s m :
  notebook env (init_state w) = (r, s) → load_entry m ∈ trace s → loaded m s.
Proof.
  intros Hr Hin. destruct (notebook_spec _ _ _ _ Hr) as (t1 & t2 & t3 & E & K1 & L & Hs).
  rewrite E in Hin. apply elem_of_app in Hin as [Hin|Hin]; [by apply L|].
  destruct Hs as [(-> & -> & _)|(m' & d & o' & Hm & -> & D & Ho)].
  - by apply elem_of_nil in Hin.
  - apply elem_of_app in Hin as [Hin|Hin].
    + by apply list_elem_of_singleton in Hin.
    + destruct o' as [rep|e]; [|subst; by apply elem_of_nil in Hin].
      destruct Ho as (fit & _ & K3). apply after_sampling_kinds in K3.
      other_kind K3 Hin.
Qed.

Lemma zip3_lookup {A B C} (xs : list A) (ys : list B) (zs : list C) i x y z :
  xs !! i = Some x → ys !! i = Some y → zs !! i = Some z →
  zip3 xs ys zs !! i = Some (x, y, z).
Proof.
  revert ys zs i. induction xs as [|x' xs IH]; intros [|y' ys] [|z' zs] [|i];
    simpl; try done.
  - by intros [= ->] [= ->] [= ->].
  - apply IH.
Qed.

Lemma py_range_lookup n i : i < n → py_range n !! i = Some (Z.of_nat i).
Proof.
  intros Hi. unfold py_range. rewrite list_lookup_fmap, lookup_seq_lt by done.
  done.
Qed.

Lemma bars_kinds (l : list (Z * F * F)) :
  (kind_of ∘ fst) <$>
    ((λ p, (bar_call p, Returned RNone) : @Call F Fit * @Outcome F Fit) <$> l) =
  replicate (length l) KReport.
Proof. induction l as [|[[i m] se] l IH]; csimpl; [done|]. by rewrite IH. Qed.

Lemma figure_calls_kinds n (ys ses : Series F) :
  (kind_of ∘ fst) <$> (figure_calls (Fit:=Fit) n ys ses) =
  replicate (length (figure_calls (Fit:=Fit) n ys ses)) KReport.
Proof.
  unfold figure_calls. rewrite !fmap_app, bars_kinds, !length_app, length_fmap.
  simpl. rewrite replicate_add. simpl. done.
Qed.

Lemma figure_calls_reported n (ys ses : Series F) :
  Forall (λ p, kind_of p.1 = KReport) (figure_calls (Fit:=Fit) n ys ses).
Proof.
  assert (Forall (λ k, k = KReport)
            ((kind_of ∘ fst) <$> figure_calls (Fit:=Fit) n ys ses)) as Hk.
  { rewrite figure_calls_kinds. by apply Forall_replicate. }
  rewrite Forall_fmap in Hk. exact Hk.
Qed.

Lemma omap_nil_Forall {A B} (f : A → option B) (l : list A) :
  Forall (λ x, f x = None) l → omap f l = [].
Proof. induction 1 as [|x l Hx _ IH]; csimpl; [done|]. by rewrite Hx. Qed.

(** A reporting call is no import and no indexing of the fit. *)
Ltac not_reported :=
  eapply Forall_impl; [apply figure_calls_reported|];
  intros [c o] Hk; simpl in *; destruct c; try done;
  unfold kind_of in Hk;
  match type of Hk with context [String.eqb ?a ?b] => by destruct (String.eqb a b) end.

Lemma extracted_run_calls (ns : @Namespace F Fit) m a a' ys ses :
  extracted (run_calls ns m a a' ys ses) = [a; a'].
Proof.
  unfold run_calls, extracted. rewrite !omap_app.
  rewrite (omap_nil_Forall _ (figure_calls _ _ _)); [done|]. not_reported.
Qed.

Lemma county_index_run_calls (ns : @Namespace F Fit) m a a' ys ses :
  county_index (run_calls ns m a a' ys ses) = [v_mn_counties m].
Proof.
  unfold run_calls, county_index. rewrite !omap_app.
  rewrite (omap_nil_Forall _ (figure_calls _ _ _)); [done|]. not_reported.
Qed.

Lemma stan_calls_run_calls (ns : @Namespace F Fit) m a a' ys ses :
  stan_calls (run_calls ns m a a' ys ses) = [stan_kwargs (unpooled_data_dict ns)].
Proof.
  unfold run_calls, stan_calls. rewrite !omap_app.
  rewrite (omap_nil_Forall _ (figure_calls _ _ _)); [done|]. not_reported.
Qed.

Lemma reported_run_calls (ns : @Namespace F Fit) m a a' ys ses :
  reported (run_calls ns m a a' ys ses) =
  (Display (head (unpooled_estimates ns)), Returned RNone) ::
  figure_calls (s_len (unpooled_estimates ns)) ys ses.
Proof.
  unfold run_calls, reported. rewrite !filter_app.
  pose proof (figure_calls_reported (s_len (unpooled_estimates ns)) ys ses) as K.
  assert (∀ t, Forall (λ p, kind_of p.1 = KReport) t →
               filter (λ p, kind_of p.1 = KReport) t = t) as Hid.
  { induction 1 as [|p t Hp _ IH]; [done|].
    rewrite filter_cons_True by done. by rewrite IH. }
  rewrite (Hid _ K). done.
Qed.

Lemma pd_Series_error (data : list F) index e :
  pd_Series data index = inl e →
  length data ≠ length index ∧
  e = length_mismatch (length data) (length index).
Proof. unfold pd_Series. case_decide; [done|]. by intros [= <-]. Qed.

Lemma of_kinds_none {B} ks (f : @Call F Fit * @Outcome F Fit → option B) t :
  Forall (of_kinds ks) t →
  (∀ p, of_kinds ks p → f p = None) → omap f t = [].
Proof.
  intros K Hf. apply omap_nil_Forall. eapply Forall_impl; [exact K|]. done.
Qed.

Lemma loaded_names (m m' : CleanData F) (s : @PyState F Fit W) :
  loaded m s → loaded m' s → v_mn_counties m' = v_mn_counties m.
Proof. intros (_ & _ & _ & L) (_ & _ & _ & L'). congruence. Qed.

Lemma kinds_not_reported t :
  Forall (of_kinds [KSetup; KLoad; KSample; KExtract]) t → reported t = [].
Proof.
  unfold reported. induction 1 as [|[c o] t Hc _ IH]; [done|].
  rewrite filter_cons_False; [done|]. simpl. intros Hk.
  unfold of_kinds in Hc. simpl in Hc. rewrite Hk in Hc. by vm_compute in Hc.
Qed.

Lemma summary_error_names (m m' : CleanData F) xs :
  v_mn_counties m' = v_mn_counties m → summary_error m' xs = summary_error m xs.
Proof. unfold summary_error. by intros ->. Qed.

Lemma extracted_no_fit t :
  Forall (of_kinds [KSetup; KLoad; KSample]) t → extracted t = [].
Proof.
  intros K. apply (of_kinds_none _ _ _ K).
  intros [c o] Hk. unfold of_kinds in Hk. simpl in *.
  destruct c; try done; by vm_compute in Hk.
Qed.

Lemma extracted_no_report t :
  Forall (of_kinds [KReport]) t → extracted t = [].
Proof.
  intros K. apply (of_kinds_none _ _ _ K).
  intros [c o] Hk. unfold of_kinds in Hk. simpl in *.
  destruct c; try done; by vm_compute in Hk.
Qed.

(** Every run, by how it ends: a call raised, and it was the last; or every
    call returned and the summary computation of cell 14 raised; or the run
    returned. *)
Lemma run_ends env w r s :
  notebook env (init_state w) = (r, s) →
  (∃ e t0 c, r = inl e ∧ trace s = t0 ++ [(c, Raised e)] ∧
     ∀ m, loaded m s → summary_error m (extracted (trace s)) = None) ∨
  (∃ e m, r = inl e ∧ load_entry m ∈ trace s ∧ Forall returned (trace s) ∧
     summary_error m (extracted (trace s)) = Some e) ∨
  (∃ ns, r = inr ns ∧
     ∀ m, loaded m s → summary_error m (extracted (trace s)) = None).
Proof.
  intros Hr. apply notebook_inv in Hr as [(e & H1 & ->)|(u & s1 & H1 & Hr)].
  { left. destruct (cell1_stops _ _ _ _ H1) as (t0 & c & E).
    destruct (cell1_kinds _ _ _ _ H1) as (t & E' & K). simpl in E, E'.
    exists e, t0, c. split; [done|]. split; [done|]. intros m _.
    rewrite E', extracted_no_fit; [done|].
    eapply Forall_impl; [exact K|]. intros [c' o] Hk.
    unfold of_kinds in *. simpl in *.
    destruct (kind_of c'); by vm_compute in Hk |- *. }
  destruct (cell1_ok _ _ _ _ H1) as (m & E1 & L1). simpl in E1.
  assert (Forall (of_kinds [KSetup; KLoad; KSample]) (trace s1)) as K1
    by (rewrite E1; repeat constructor).
  assert (Forall returned (trace s1)) as R1.
  { rewrite E1. unfold setup_calls. repeat (constructor; [by eexists|]).
    constructor. }
  assert (load_entry m ∈ trace s1) as M1.
  { rewrite E1. unfold setup_calls, load_entry.
    do 5 apply list_elem_of_further. apply list_elem_of_here. }
  destruct Hr as [(e & H2 & ->)|(d & fit & s2 & H2 & Hr)].
  { left. destruct (cell12_spec _ _ _ _ _ L1 H2) as (d & o & E2 & _ & ->).
    exists e, (trace s1), (PystanStan (stan_kwargs d)).
    split; [done|]. split; [done|]. intros m' _.
    rewrite E2, extracted_no_fit; [done|].
    apply Forall_app. split; [done|]. by repeat constructor. }
  destruct (cell12_spec _ _ _ _ _ L1 H2) as (d' & o & E2 & D & <- & ->). simpl in *.
  destruct (cell12_preserves _ _ _ _ H2) as [S2 C2].
  assert (loaded m s2) as L2 by by eapply loaded_stable.
  assert (extracted (trace s2) = []) as X2.
  { rewrite E2. apply extracted_no_fit, Forall_app.
    split; [done|]. by repeat constructor. }
  assert (Forall returned (trace s2)) as R2.
  { rewrite E2. apply Forall_app. split; [done|].
    constructor; [by eexists|constructor]. }
  assert (load_entry m ∈ trace s2) as M2
    by (rewrite E2; apply elem_of_app; by left).
  assert (∃ r3 s3, cell14 env fit s2 = (r3, s3) ∧ heap s2 ⊆ heap s3 ∧
                   clean_data s3 = clean_data s2 ∧
                   match r3 with
                   | inl e => r = inl e ∧ s = s3
                   | inr es => ∃ r4, cell16 env es.1 es.2 s3 = (r4, s) ∧
                       r = match r4 with
                           | inl e => inl e
                           | inr o => inr (mk_Namespace d fit es.1 es.2 o)
                           end
                   end) as (r3 & s3 & H3 & S3 & C3 & Hrest).
  { destruct Hr as [(e & H3 & ->)|(est & se & s3 & H3 & r4 & H4 & ->)].
    - destruct (cell14_preserves _ _ _ _ _ H3). by exists (inl e), s.
    - destruct (cell14_preserves _ _ _ _ _ H3).
      exists (inr (est, se)), s3. repeat (split; [done|]). by exists r4. }
  clear Hr. assert (loaded m s3) as L3 by by eapply loaded_stable.
  assert (∀ xs (s' : @PyState F Fit W), loaded m s' → summary_error m xs = None →
            ∀ m', loaded m' s' → summary_error m' xs = None) as Hnone.
  { intros xs s' L Hx m' L'.
    by rewrite (summary_error_names m m') by by eapply loaded_names. }
  destruct (cell14_spec _ _ _ _ _ _ L2 H3)
    as [(e & -> & E)|[(a1 & e & -> & E & P1)|[(a1 & est & e & -> & E & P1)
       |[(a1 & a2 & est & e & -> & E & P1 & P2)
       |[(a1 & a2 & est & se & e & -> & E & P1 & P2)
       |(a1 & a2 & est & se & -> & E & P1 & P2)]]]]].
  - destruct Hrest as [-> ->]. left. exists e, (trace s2), (FitGetItem fit "a").
    split; [done|]. split; [done|]. apply (Hnone _ _ L3).
    rewrite E. unfold extracted in *. by rewrite omap_app, X2.
  - destruct Hrest as [-> ->]. right; left. exists e, m. split; [done|].
    rewrite E. split; [apply elem_of_app; by left|]. split.
    + apply Forall_app. split; [done|]. constructor; [by eexists|constructor].
    + unfold extracted in *. rewrite omap_app, X2. simpl. by rewrite P1.
  - destruct Hrest as [-> ->]. left.
    exists e, (trace s2 ++ [(FitGetItem fit "a", Returned (RArray a1))]),
      (FitGetItem fit "a").
    split; [done|]. split; [by rewrite E, <- (assoc_L (++))|].
    apply (Hnone _ _ L3).
    rewrite E. unfold extracted in *. rewrite omap_app, X2. simpl. by rewrite P1.
  - destruct Hrest as [-> ->]. right; left. exists e, m. split; [done|].
    rewrite E. split; [apply elem_of_app; by left|]. split.
    + apply Forall_app. split; [done|].
      repeat (constructor; [by eexists|]). constructor.
    + unfold extracted in *. rewrite omap_app, X2. simpl. by rewrite P1, P2.
  - destruct Hrest as [-> ->]. left.
    exists e, (trace s2 ++ [(FitGetItem fit "a", Returned (RArray a1));
                            (FitGetItem fit "a", Returned (RArray a2))]),
      (Display (head est)).
    split; [done|]. split; [by rewrite E, <- (assoc_L (++))|].
    apply (Hnone _ _ L3).
    rewrite E. unfold extracted in *. rewrite omap_app, X2. simpl.
    by rewrite P1, P2.
  - destruct Hrest as (r4 & H4 & ->). simpl in H4.
    destruct (cell16_kinds _ _ _ _ _ _ H4) as (t4 & E4 & K4).
    destruct (cell16_preserves _ _ _ _ _ _ H4) as [S4 C4].
    assert (loaded m s) as L4 by by eapply loaded_stable.
    assert (summary_error m (extracted (trace s)) = None) as Hx.
    { rewrite E4, E. unfold extracted in *.
      rewrite !omap_app, X2. fold (extracted t4).
      rewrite (extracted_no_report t4 K4). simpl. by rewrite P1, P2. }
    destruct r4 as [e|o].
    + left. destruct (cell16_relays _ _ _ _ _ _ P1 P2 _ _ _ H4) as (t0 & c & E4').
      exists e, (trace s3 ++ t0), c. split; [done|].
      split; [by rewrite E4', <- (assoc_L (++))|]. by apply (Hnone _ _ L4).
    + right; right. eexists. split; [done|]. by apply (Hnone _ _ L4).
Qed.


(** C2. In a run that returns, let [m] be the imported dataset and [a],
    [a'] the arrays the two indexings of the fit returned.  For every county
    position [j], entry [j] of [unpooled_estimates] carries the name of county
    [j] and the arithmetic mean of column [j] of [a] over the draws, and entry
    [j] of [unpooled_se] carries the same name and the standard deviation of
    column [j] of [a'] over the draws.  (Positions count from 0: county 1 of
    the 85 is position 0.) *)
Theorem estimates_are_column_summaries env w ns s m a a' j :
  notebook env (init_state w) = (inr ns, s) →
  load_entry m ∈ trace s → extracted (trace s) = [a; a'] →
  rectangular a → rectangular a' → j < length (v_mn_counties m) →
  ∃ name,
    v_mn_counties m !! j = Some name ∧
    s_items (unpooled_estimates ns) !! j =
      Some (name, mean_of (nrows a) (column j a)) ∧
    s_items (unpooled_se ns) !! j =
      Some (name, std_of (nrows a') (column j a')) ∧
    (Display (head (unpooled_estimates ns)), Returned RNone) ∈ trace s.
Proof.
  intros Hr Hm Hx Ra Ra' Hj.
  destruct (notebook_ok _ _ _ _ Hr) as (m0 & a0 & a0' & ys & ses & E & V & L0 & _).
  pose proof (load_entry_inv _ _ _ _ _ Hr Hm) as L.
  assert (v_mn_counties m0 = v_mn_counties m) as Hsame.
  { destruct L as (_ & _ & _ & L4), L0 as (_ & _ & _ & L4'). congruence. }
  rewrite E, extracted_run_calls in Hx. injection Hx as -> ->.
  destruct V as ([L1 E1]%pd_Series_inv & [L2 E2]%pd_Series_inv & _).
  rewrite Hsame in *.
  destruct (lookup_lt_is_Some_2 _ _ Hj) as [name Hn]. exists name.
  split; [done|]. rewrite E1, E2.
  rewrite (mean0_length a Ra) in L1. rewrite (std0_length a' Ra') in L2.
  split; [|split].
  - apply lookup_zip_with_Some. eexists _, _. split; [done|]. split; [done|].
    apply mean0_lookup; [done|lia].
  - apply lookup_zip_with_Some. eexists _, _. split; [done|]. split; [done|].
    apply std0_lookup; [done|lia].
  - rewrite E. unfold run_calls, extract_calls. set_solver.
Qed.

(** C3. The [model_code] of every call of the sampler is the concatenation
    of the data block, the parameters block, the transformed-parameters block
    and the model block, in this order.  The data block declares [N],
    [county], [x] and [y]; the parameters block declares [a], [beta] and
    [sigma]; the transformed-parameters block assigns
    [beta * x[i] + a[county[i]]] to [y_hat[i]] for [i] in [1:N]; the model
    block states [y ~ normal(y_hat, sigma)]. *)
Theorem model_code_text env w r s kw o :
  notebook env (init_state w) = (r, s) → (PystanStan kw, o) ∈ trace s →
  kw !! 0 = Some ("model_code",
                  AStr (((unpooled_data +:+ unpooled_parameters) +:+
                         unpooled_transformed_parameters) +:+ unpooled_model)) ∧
  (∀ arg, ("model_code", arg) ∈ kw → arg = AStr model_code) ∧
  occurs "int<lower=0> N;" unpooled_data ∧
  occurs "int<lower=1, upper=85> county[N];" unpooled_data ∧
  occurs "vector[N] x;" unpooled_data ∧
  occurs "vector[N] y;" unpooled_data ∧
  occurs "vector[85] a;" unpooled_parameters ∧
  occurs "real beta;" unpooled_parameters ∧
  occurs "real<lower=0, upper=100> sigma;" unpooled_parameters ∧
  occurs "vector[N] y_hat;" unpooled_transformed_parameters ∧
  occurs "for (i in 1:N)
    y_hat[i] <- beta * x[i] + a[county[i]];" unpooled_transformed_parameters ∧
  occurs "y ~ normal(y_hat, sigma);" unpooled_model.
Proof.
  intros Hr Hin.
  destruct (stan_entry_inv _ _ _ _ _ _ Hr Hin) as (m & d & _ & -> & _).
  split; [done|]. split.
  { intros arg Harg. unfold stan_kwargs in Harg.
    repeat (apply elem_of_cons in Harg as [Harg|Harg]; [by simplify_eq|]).
    by apply elem_of_nil in Harg. }
  repeat split; (eapply occurs_index; vm_compute; reflexivity).
Qed.


Lemma stan_at_inl {A} name (v : list A) i e :
  stan_at name v i = inl e → e = OutOfRange name i.
Proof.
  unfold stan_at. case_decide; [|by intros [= <-]].
  destruct (v !! _); [done|by intros [= <-]].
Qed.

Lemma stan_at_elem {A} name (v : list A) i x :
  stan_at name v i = inr x → x ∈ v.
Proof.
  unfold stan_at. case_decide; [|done].
  destruct (v !! _) eqn:E; [|done]. intros [= <-].
  by eapply list_elem_of_lookup_2.
Qed.

Lemma stan_at_in_range {A} name (v : list A) i :
  (1 ≤ i ≤ Z.of_nat (length v))%Z → ∃ x, stan_at name v i = inr x.
Proof.
  intros Hi. unfold stan_at. rewrite decide_True by lia.
  destruct (lookup_lt_is_Some_2 v (Z.to_nat (i - 1))) as [x ->]; [lia|eauto].
Qed.

Lemma wrap64_small z : (- 2 ^ 63 ≤ z < 2 ^ 63)%Z → wrap64 z = z.
Proof. intros Hz. unfold wrap64. rewrite Z.mod_small; lia. Qed.

(** C5. The data dictionary of every call of the sampler fits the data
    block: ['N'] is the length of [clean_data.log_radon], which is the array
    ['y'] refers to; ['county'] refers to an array that holds, entry by entry,
    [clean_data.county] plus one (in int64).  When every county code lies in
    0..84, every transmitted value lies in the declared bounds 1..85 and no
    access [a[county[i]]] of the transformed-parameters block leaves a vector
    [a] of the declared length 85. *)
Theorem data_dict_consistent env w r s kw o :
  notebook env (init_state w) = (r, s) → (PystanStan kw, o) ∈ trace s →
  ∃ m d ly lc,
    load_entry m ∈ trace s ∧ ("data", ADict d) ∈ kw ∧
    d !! "N" = Some (DInt (Z.of_nat (length (v_log_radon m)))) ∧
    d !! "y" = Some (DRef ly) ∧
    heap s !! ly = Some (FloatArray (v_log_radon m)) ∧
    d !! "county" = Some (DRef lc) ∧
    heap s !! lc = Some (IntArray (stan_county (v_county m))) ∧
    (∀ i c, v_county m !! i = Some c →
            stan_county (v_county m) !! i = Some (wrap64 (c + 1))) ∧
    (Forall (λ c, 0 ≤ c ≤ 84)%Z (v_county m) →
     stan_county (v_county m) = (λ c, c + 1)%Z <$> v_county m ∧
     county_declared (stan_county (v_county m)) ∧
     ∀ (beta : F) (a x : list F) i idx,
       a_declared a →
       y_hat_at beta a x (stan_county (v_county m)) i ≠ inl (OutOfRange "a" idx)).
Proof.
  intros Hr Hin.
  destruct (stan_entry_inv _ _ _ _ _ _ Hr Hin) as (m & d & Hm & -> & D & L & _).
  destruct D as (lc1 & lx & ly & lc & -> & Hc1 & Ac & Hne & Ax & Ay).
  destruct L as (Ly & _).
  apply attr_value_Some in Ly as (ly' & Ay' & Hy).
  assert (ly' = ly) as -> by congruence.
  exists m, (data_dict_of (Z.of_nat (length (v_log_radon m))) lc1 lx ly), ly, lc1.
  split; [done|]. split; [unfold stan_kwargs; set_solver|].
  repeat (split; [done|]).
  split.
  { intros i c Hi. unfold stan_county. by rewrite list_lookup_fmap, Hi. }
  intros Hrange.
  assert (stan_county (v_county m) = (λ c, c + 1)%Z <$> v_county m) as Heq.
  { unfold stan_county. apply Forall_fmap_ext_1.
    eapply Forall_impl; [exact Hrange|]. intros c Hc. simpl in *.
    apply wrap64_small. lia. }
  assert (county_declared (stan_county (v_county m))) as Hdecl.
  { unfold county_declared. rewrite Heq. apply Forall_fmap.
    eapply Forall_impl; [exact Hrange|]. intros c Hc. simpl in *. lia. }
  split; [done|]. split; [done|].
  intros beta a x i idx Ha. unfold y_hat_at.
  destruct (stan_at "x" x i) as [e|xi] eqn:Ex.
  { apply stan_at_inl in Ex as ->. done. }
  destruct (stan_at "county" _ i) as [e|ci] eqn:Ec.
  { apply stan_at_inl in Ec as ->. done. }
  apply stan_at_elem in Ec. unfold county_declared in Hdecl.
  rewrite Forall_forall in Hdecl. apply Hdecl in Ec.
  destruct (stan_at_in_range "a" a ci) as [ai ->]; [|done].
  unfold a_declared in Ha. rewrite Ha. lia.
Qed.


(** C7. In a run that returns, the figure is drawn by the last calls of the
    log.  The estimates given to the scatter plot are the estimates of the
    counties in another order, and they are nondecreasing: the numbers among
    them are, and a NaN, which has no place in the order and is not drawn,
    comes only after the numbers.  The error bar at
    position [i] runs from [m - se] to [m + se], where [m] and [se] are the
    estimate and the standard error of one and the same county, the county
    whose estimate is plotted at position [i]. *)
Theorem plot_sorted_and_aligned `{!Float64Order F} env w ns s :
  notebook env (init_state w) = (inr ns, s) →
  ∃ ys ses t,
    trace s = t ++ figure_calls (s_len (unpooled_estimates ns)) ys ses ∧
    StronglySorted f_le (filter is_number (s_values ys)) ∧
    (∀ i k x y, i < k → s_values ys !! i = Some x → s_values ys !! k = Some y →
                is_number y → is_number x) ∧
    s_items ys ≡ₚ s_items (unpooled_estimates ns) ∧
    NoDup (s_index (unpooled_estimates ns)) ∧
    ∀ i l mi, s_items ys !! i = Some (l, mi) →
      ∃ sei j,
        s_items ses !! i = Some (l, sei) ∧
        s_items (unpooled_estimates ns) !! j = Some (l, mi) ∧
        s_items (unpooled_se ns) !! j = Some (l, sei) ∧
        (PltPlot [Z.of_nat i; Z.of_nat i] [f_sub mi sei; f_add mi sei] "b-",
         Returned RNone) ∈ trace s.
Proof.
  intros Hr. destruct (notebook_ok _ _ _ _ Hr) as (m & a & a' & ys & ses & E & V & _ & _).
  destruct V as (V1 & V2 & Ho & G1 & G2 & Hlen). rewrite Ho in G1, G2.
  destruct (reordered _ _ _ _ _ _ _ V1 V2 G1 G2 Hlen) as (Hnd & Hys & Hal).
  apply pd_Series_inv in V1 as [L1 E1]. apply pd_Series_inv in V2 as [L2 E2].
  assert (s_index (unpooled_estimates ns) = v_mn_counties m) as In1
    by (unfold s_index; rewrite E1; apply fst_zip; lia).
  exists ys, ses. eexists. split.
  { rewrite E. unfold run_calls. rewrite !(assoc_L (++)). reflexivity. }
  split; [rewrite Hys; apply numbers_sorted, sort_values_sorted|].
  split.
  { intros i k x y. rewrite Hys. apply nans_last, sort_values_sorted. }
  split; [rewrite Hys; apply sort_values_perm|].
  split; [by rewrite In1|].
  intros i l mi Hi.
  assert (s_index ys !! i = Some l) as Hl
    by (unfold s_index; by rewrite list_lookup_fmap, Hi).
  destruct (Forall2_lookup_l _ _ _ _ _ Hal Hl) as ([l' sei] & Hs & Hl' & Hse).
  simpl in Hl'. subst l'. exists sei.
  assert ((l, mi) ∈ s_items (unpooled_estimates ns)) as Hm.
  { rewrite <- (sort_values_perm (unpooled_estimates ns)), <- Hys.
    by eapply list_elem_of_lookup_2. }
  apply list_elem_of_lookup in Hm as [j Hj].
  apply list_elem_of_lookup in Hse as [j' Hj'].
  assert (j' = j) as ->.
  { rewrite E1 in Hj. rewrite E2 in Hj'.
    apply lookup_zip_with_Some in Hj as (? & ? & [= <- <-] & Hn & _).
    apply lookup_zip_with_Some in Hj' as (? & ? & [= <- <-] & Hn' & _).
    by eapply NoDup_lookup. }
  exists j. repeat (split; [done|]).
  rewrite E. unfold run_calls, figure_calls.
  do 3 (apply elem_of_app; right). apply elem_of_cons; right.
  apply elem_of_app; left.
  apply list_elem_of_fmap. exists (Z.of_nat i, mi, sei). split; [done|].
  apply list_elem_of_lookup. exists i. apply zip3_lookup.
  - apply py_range_lookup. rewrite <- Hlen. unfold s_values.
    rewrite length_fmap. by eapply lookup_lt_Some.
  - unfold s_values. by rewrite list_lookup_fmap, Hi.
  - unfold s_values. by rewrite list_lookup_fmap, Hs.
Qed.

(** C8. The sampler is called at most once in any run and exactly once in
    a run that returns, with the model text, the data dictionary, [iter=1000]
    and [chains=2]; every indexing of a fit is an indexing of the object that
    call returned; the summaries are computed from the arrays those indexings
    returned. *)
Theorem sampler_called_once env w r s :
  notebook env (init_state w) = (r, s) →
  length (stan_calls (trace s)) ≤ 1 ∧
  (∀ kw o, (PystanStan kw, o) ∈ trace s →
     stan_calls (trace s) = [kw] ∧
     ∃ d, kw = [("model_code", AStr model_code); ("data", ADict d);
                ("iter", AInt 1000); ("chains", AInt 2)]) ∧
  (∀ f k o, (FitGetItem f k, o) ∈ trace s →
     k = "a" ∧ ∃ kw, (PystanStan kw, Returned (RFit f)) ∈ trace s) ∧
  (∀ ns, r = inr ns →
     length (stan_calls (trace s)) = 1 ∧
     ∃ a a', extracted (trace s) = [a; a'] ∧
             s_values (unpooled_estimates ns) = mean0 a ∧
             s_values (unpooled_se ns) = std0 a').
Proof.
  intros Hr. split; [|split; [|split]].
  - destruct (notebook_spec _ _ _ _ Hr) as (t1 & t2 & t3 & E & K1 & _ & Hs).
    destruct Hs as [(-> & -> & _)|(m & d & o & _ & -> & _)].
    + rewrite !app_nil_r in E.
      assert (stan_calls (trace s) = []) as ->; [|simpl; lia].
      rewrite E. apply omap_nil_Forall.
      eapply Forall_impl; [exact K1|]. intros [c o'] Hc. simpl.
      destruct c; try done.
    + assert ((PystanStan (stan_kwargs d), o) ∈ trace s) as Hin
        by (rewrite E; set_solver).
      destruct (stan_entry_inv _ _ _ _ _ _ Hr Hin) as (_ & _ & _ & _ & _ & _ & ->).
      done.
  - intros kw o Hin.
    destruct (stan_entry_inv _ _ _ _ _ _ Hr Hin) as (m & d & _ & -> & _ & _ & Hc).
    split; [done|]. by exists d.
  - intros f k o Hin.
    destruct (notebook_spec _ _ _ _ Hr) as (t1 & t2 & t3 & E & K1 & _ & Hs).
    rewrite E in Hin |- *.
    apply elem_of_app in Hin as [Hin|Hin]; [other_kind K1 Hin|].
    destruct Hs as [(-> & -> & _)|(m & d & o' & _ & -> & _ & Ho)];
      [by apply elem_of_nil in Hin|].
    apply elem_of_app in Hin as [Hin|Hin];
      [by apply list_elem_of_singleton in Hin|].
    destruct o' as [rep|e]; [|subst; by apply elem_of_nil in Hin].
    destruct Ho as (fit & -> & K3). rewrite Forall_forall in K3.
    destruct (proj2 (K3 _ Hin) f k eq_refl) as [Ef Ek]. subst f k.
    split; [done|]. exists (stan_kwargs d). set_solver.
  - intros ns ->.
    destruct (notebook_ok _ _ _ _ Hr) as (m & a & a' & ys & ses & E & V & _ & _).
    rewrite E, stan_calls_run_calls, extracted_run_calls. split; [done|].
    exists a, a'. split; [done|].
    destruct V as ([L1 E1]%pd_Series_inv & [L2 E2]%pd_Series_inv & _).
    unfold s_values. rewrite E1, E2. split; apply snd_zip; lia.
Qed.

End Runs.

(** C9. The steps after the extraction are a function of the extracted
    arrays and the county names: two runs that return, possibly against
    different outside worlds, and that extracted equal arrays and imported
    equal county names, compute equal estimates, equal standard errors and an
    equal plotting order, and display and draw the same. *)
Theorem summaries_deterministic {F : Type} `{Float64 F} {Fit W1 W2 : Type}
    (env1 : @Env F Fit W1) (env2 : @Env F Fit W2) w1 w2 ns1 ns2 s1 s2 :
  notebook env1 (init_state w1) = (inr ns1, s1) →
  notebook env2 (init_state w2) = (inr ns2, s2) →
  extracted (trace s1) = extracted (trace s2) →
  county_index (trace s1) = county_index (trace s2) →
  unpooled_estimates ns1 = unpooled_estimates ns2 ∧
  unpooled_se ns1 = unpooled_se ns2 ∧
  order ns1 = order ns2 ∧
  reported (trace s1) = reported (trace s2).
Proof.
  intros Hr1 Hr2 Hx Hc.
  destruct (notebook_ok _ _ _ _ Hr1) as (m1 & a1 & a1' & ys1 & ses1 & E1 & V1 & _ & _).
  destruct (notebook_ok _ _ _ _ Hr2) as (m2 & a2 & a2' & ys2 & ses2 & E2 & V2 & _ & _).
  rewrite E1, E2 in Hx, Hc |- *.
  rewrite !extracted_run_calls in Hx. rewrite !county_index_run_calls in Hc.
  rewrite !reported_run_calls.
  injection Hx as <- <-. injection Hc as Hc.
  destruct V1 as (A1 & B1 & O1 & Y1 & S1 & _), V2 as (A2 & B2 & O2 & Y2 & S2 & _).
  rewrite Hc in A1, B1.
  assert (unpooled_estimates ns1 = unpooled_estimates ns2) as He by congruence.
  assert (unpooled_se ns1 = unpooled_se ns2) as Hs by congruence.
  assert (order ns1 = order ns2) as Ho by congruence.
  rewrite He, Hs, Ho in *.
  assert (ys1 = ys2) as -> by congruence.
  assert (ses1 = ses2) as -> by congruence.
  done.
Qed.

(** ** Edges of the library calls *)

Section Edges.
Context {F : Type} `{Float64 F}.

(** X1. The reordering of cell 16 cannot miss a label: the labels come from
    the sorted estimates, so indexing the estimates by them, and indexing a
    series with the same index by them, raises no KeyError. *)
Theorem label_lookup_never_fails (est se : Series F) :
  s_index se = s_index est →
  ∃ ys ses,
    getitem_labels est (s_index (sort_values est)) = inr ys ∧
    getitem_labels se (s_index (sort_values est)) = inr ses.
Proof.
  intros Hidx.
  assert (Forall (λ l, l ∈ s_index est) (s_index (sort_values est))) as Hall.
  { apply Forall_forall. intros l Hl. unfold s_index in *.
    by rewrite sort_values_perm in Hl. }
  unfold getitem_labels. rewrite Hidx.
  rewrite !decide_True by done. eauto.
Qed.

(** X2. The reordered estimates have as many entries as there are counties
    exactly when the county names are distinct: a name that occurs twice
    brings every entry that carries it once per occurrence. *)
Theorem reordered_length_iff_distinct (names : list string) (means : list F) est ys :
  pd_Series means names = inr est →
  getitem_labels est (s_index (sort_values est)) = inr ys →
  s_len ys = s_len est ↔ NoDup names.
Proof.
  intros [Lm Em]%pd_Series_inv [Fy Ey]%getitem_labels_inv.
  unfold lookup_label in Ey.
  assert (s_index est = names) as In1
    by (unfold s_index; rewrite Em; apply fst_zip; lia).
  split.
  - intros Hlen. rewrite <- In1. unfold s_index. apply NoDup_labels.
    assert (Forall (λ l, l ∈ (s_items est).*1) (s_items est).*1) as Hall
      by (apply Forall_forall; auto).
    apply (bind_length_ge (s_items est)) in Hall as [_ Hall]. apply Hall.
    unfold s_len in Hlen. rewrite Ey in Hlen. rewrite length_fmap, <- Hlen.
    apply Permutation_length. apply bind_Permutation.
    unfold s_index. by rewrite sort_values_perm.
  - intros Hnd. unfold s_len. rewrite Ey. unfold s_index at 1.
    rewrite reorder_permuted; [|by fold (s_index est); rewrite In1
                               |apply sort_values_perm].
    apply Permutation_length, sort_values_perm.
Qed.

Lemma stan_at_succ {A} name (v : list A) i :
  stan_at name v (Z.of_nat (S i)) =
  match v !! i with Some x => inr x | None => inl (OutOfRange name (Z.of_nat (S i))) end.
Proof.
  unfold stan_at. rewrite decide_True by lia.
  replace (Z.to_nat (Z.of_nat (S i) - 1)) with i by lia. done.
Qed.

(** X3. The offset lines the two ways of counting up: for household [i]
    (counted from 0) with county code [c] (counted from 0), the body of the
    Stan loop at index [i + 1], run on the transmitted codes, adds to
    [beta * x[i]] the entry of [a] that the code [c] denotes in Python. *)
Theorem y_hat_reads_the_county (beta : F) (a x : list F) (cs : list Z) i xi c ai :
  x !! i = Some xi → cs !! i = Some c →
  (0 ≤ c < 2 ^ 63 - 1)%Z → a !! Z.to_nat c = Some ai →
  y_hat_at beta a x (stan_county cs) (Z.of_nat (S i)) =
    inr (f_add (f_mul beta xi) ai).
Proof.
  intros Hx Hc Hr Ha. unfold y_hat_at, stan_county.
  rewrite !stan_at_succ, Hx, list_lookup_fmap, Hc. simpl.
  rewrite wrap64_small by lia.
  replace (c + 1)%Z with (Z.of_nat (S (Z.to_nat c))) by lia.
  by rewrite stan_at_succ, Ha.
Qed.

Lemma y_hat_loop (beta : F) (a x : list F) (county : list Z) (g : nat → F) k n :
  (∀ i, k ≤ i < k + n → y_hat_at beta a x county (Z.of_nat (S i)) = inr (g i)) →
  foldr (λ i rest,
           match y_hat_at beta a x county i with
           | inl e => inl e
           | inr v => match rest with
                      | inl e => inl e
                      | inr vs => inr (v :: vs)
                      end
           end)
        (inr []) (Z.of_nat <$> seq (S k) n) = inr (g <$> seq k n).
Proof.
  revert k. induction n as [|n IH]; intros k Hg; [done|].
  simpl. rewrite (Hg k) by lia. rewrite IH; [done|].
  intros i Hi. apply Hg. lia.
Qed.

(** X4. With data that fit the data block ([x] and [county] of length [N],
    codes in 0..84) and a vector [a] of the declared length, the loop of the
    transformed-parameters block meets no index error: it gives [N] values,
    and value [i] is [beta * x[i] + a[c]] for the county code [c] of
    household [i]. *)
Theorem y_hat_total (beta : F) (a x : list F) (cs : list Z) :
  length cs = length x → Forall (λ c, 0 ≤ c ≤ 84)%Z cs → a_declared a →
  ∃ ys, y_hat beta a x (stan_county cs) (Z.of_nat (length x)) = inr ys ∧
        length ys = length x ∧
        ∀ i xi c, x !! i = Some xi → cs !! i = Some c →
          ∃ ai, a !! Z.to_nat c = Some ai ∧
                ys !! i = Some (f_add (f_mul beta xi) ai).
Proof.
  intros Hlen Hcs Ha. unfold a_declared in Ha.
  assert (∀ i, i < length x → ∃ xi c ai,
            x !! i = Some xi ∧ cs !! i = Some c ∧ a !! Z.to_nat c = Some ai ∧
            (0 ≤ c ≤ 84)%Z) as Hall.
  { intros i Hi.
    destruct (lookup_lt_is_Some_2 x i Hi) as [xi Hxi].
    destruct (lookup_lt_is_Some_2 cs i) as [c Hc]; [lia|].
    rewrite Forall_forall in Hcs.
    pose proof (Hcs c (list_elem_of_lookup_2 _ _ _ Hc)) as Hr.
    destruct (lookup_lt_is_Some_2 a (Z.to_nat c)) as [ai Hai]; [lia|].
    eauto 10. }
  set (g := λ i, match x !! i, cs !! i with
                 | Some xi, Some c =>
                     match a !! Z.to_nat c with
                     | Some ai => f_add (f_mul beta xi) ai
                     | None => f_of_Z 0
                     end
                 | _, _ => f_of_Z 0
                 end).
  exists (g <$> seq 0 (length x)). split; [|split].
  - unfold y_hat. rewrite Nat2Z.id. apply y_hat_loop. intros i Hi.
    destruct (Hall i) as (xi & c & ai & Hxi & Hc & Hai & Hr); [lia|].
    rewrite (y_hat_reads_the_county beta a x cs i xi c ai) by (done || lia).
    unfold g. by rewrite Hxi, Hc, Hai.
  - by rewrite length_fmap, length_seq.
  - intros i xi c Hxi Hc.
    pose proof (lookup_lt_Some _ _ _ Hxi) as Hi.
    destruct (Hall i Hi) as (xi' & c' & ai & Hxi' & Hc' & Hai & Hr).
    assert (xi' = xi) as -> by congruence. assert (c' = c) as -> by congruence.
    exists ai. split; [done|].
    rewrite list_lookup_fmap, lookup_seq_lt by done. simpl.
    unfold g. by rewrite Hxi, Hc, Hai.
Qed.

(** X5. The bounds of the data block hold for the transmitted codes exactly
    when the codes of the dataset lie in 0..84 (for codes below the largest
    int64, where adding one does not wrap): a code of 85 or more, or a
    negative one, is refused by the declaration. *)
Theorem county_declared_iff (cs : list Z) :
  Forall (λ c, - 2 ^ 63 ≤ c < 2 ^ 63 - 1)%Z cs →
  county_declared (stan_county cs) ↔ Forall (λ c, 0 ≤ c ≤ 84)%Z cs.
Proof.
  intros Hsafe. unfold county_declared, stan_county.
  rewrite Forall_fmap. rewrite !Forall_forall in *.
  split; intros Hc c Hin; specialize (Hc c Hin); specialize (Hsafe c Hin);
    simpl in *; rewrite wrap64_small in *; lia.
Qed.


(** X14. Data that Stan accepts meet no index error: with [a] of the
    declared length, the loop of the transformed-parameters block gives its
    [N] values. *)
Theorem accepted_data_no_index_error (beta : F) (a x y : list F) N county r :
  transformed_parameters beta a N county x y = inr r → a_declared a →
  ∃ ys, r = inr ys ∧ Z.of_nat (length ys) = N.
Proof.
  unfold transformed_parameters, check_data, a_declared. intros Hr Ha.
  repeat case_decide; try done. injection Hr as <-.
  match goal with Hc : county_declared _ |- _ => rename Hc into Hcd end.
  unfold county_declared in Hcd. rewrite Forall_forall in Hcd.
  set (g := λ i, match x !! i, county !! i with
                 | Some xi, Some c =>
                     match a !! Z.to_nat (c - 1) with
                     | Some ai => f_add (f_mul beta xi) ai
                     | None => f_of_Z 0
                     end
                 | _, _ => f_of_Z 0
                 end).
  exists (g <$> seq 0 (Z.to_nat N)). split.
  - unfold y_hat. apply y_hat_loop. intros i Hi.
    destruct (lookup_lt_is_Some_2 x i) as [xi Hxi]; [lia|].
    destruct (lookup_lt_is_Some_2 county i) as [c Hc]; [lia|].
    pose proof (Hcd c (list_elem_of_lookup_2 _ _ _ Hc)) as Hb.
    destruct (lookup_lt_is_Some_2 a (Z.to_nat (c - 1))) as [ai Hai]; [lia|].
    unfold y_hat_at. rewrite !stan_at_succ, Hxi, Hc.
    unfold stan_at. rewrite decide_True by lia. rewrite Hai.
    unfold g. by rewrite Hxi, Hc, Hai.
  - rewrite length_fmap, length_seq. lia.
Qed.

End Edges.

(** ** Where the notebook stops *)

(** Decides whether an entry written out is in a list written out. *)
Ltac not_in_list H :=
  repeat (first [ apply elem_of_app in H as [H|H]
                | apply elem_of_cons in H as [H|H] ];
          [try discriminate H|]);
  try (by apply elem_of_nil in H); try discriminate H;
  try (apply list_elem_of_fmap in H as ([[? ?] ?] & H & _); discriminate H).

Section Stops.
Context {F : Type} `{Float64 F} {Fit W : Type}.
Implicit Types (env : @Env F Fit W) (t : list (@Call F Fit * @Outcome F Fit)).

(** X6. When an array extracted from the fit does not have one column per
    county name, the run ends in the ValueError of [pd.Series], whose message
    names the number of columns and the number of names, and nothing has been
    displayed or drawn. *)
Theorem length_mismatch_raises env w r s m a :
  notebook env (init_state w) = (r, s) →
  load_entry m ∈ trace s → a ∈ extracted (trace s) →
  rectangular a → ncols a ≠ length (v_mn_counties m) →
  r = inl (PyExn "ValueError"
             ("Length of values (" +:+ pretty (ncols a) +:+
              ") does not match length of index (" +:+
              pretty (length (v_mn_counties m)) +:+ ")")) ∧
  reported (trace s) = [].
Proof.
  intros Hr Hm Ha Ra Hcols.
  pose proof (load_entry_inv _ _ _ _ _ Hr Hm) as L.
  assert (∀ (a0 : ndarray2 F) est,
            pd_Series (mean0 a0) (v_mn_counties m) = inr est → a0 ≠ a) as Hmean.
  { intros a0 est [Hl _]%pd_Series_inv ->. by rewrite mean0_length in Hl. }
  assert (∀ (a0 : ndarray2 F) se,
            pd_Series (std0 a0) (v_mn_counties m) = inr se → a0 ≠ a) as Hstd.
  { intros a0 se [Hl _]%pd_Series_inv ->. by rewrite std0_length in Hl. }
  destruct (notebook_stages _ _ _ _ Hr)
    as [(e & -> & K)|(m' & d & fit & s2 & r3 & s3 & E2 & L2 & H3 & Hrest)].
  { exfalso. unfold extracted in Ha.
    rewrite (of_kinds_none [KSetup; KLoad; KSample]) in Ha;
      [by apply elem_of_nil in Ha|done|].
    intros [c o] Hk. unfold of_kinds in Hk. simpl in *.
    destruct c; try done; by vm_compute in Hk. }
  assert (Forall (of_kinds [KSetup; KLoad; KSample; KExtract]) (trace s2)) as K2.
  { rewrite E2. apply Forall_app. split; by repeat constructor. }
  assert (extracted (trace s2) = []) as X2.
  { rewrite E2. unfold extracted. by rewrite omap_app. }
  destruct (cell14_spec _ _ _ _ _ _ L2 H3)
    as [(e & -> & E)|[(a1 & e & -> & E & P1)|[(a1 & est & e & -> & E & P1)
       |[(a1 & a2 & est & e & -> & E & P1 & P2)
       |[(a1 & a2 & est & se & e & -> & E & P1 & P2)
       |(a1 & a2 & est & se & -> & E & P1 & P2)]]]]].
  - destruct Hrest as [-> ->]. exfalso. rewrite E in Ha.
    unfold extracted in *. rewrite omap_app, X2 in Ha. by apply elem_of_nil in Ha.
  - destruct Hrest as [-> ->].
    assert (v_mn_counties m' = v_mn_counties m) as Hn.
    { eapply loaded_names; [exact L|].
      destruct (cell14_preserves _ _ _ _ _ H3). by eapply loaded_stable. }
    rewrite Hn in P1. apply pd_Series_error in P1 as [_ ->].
    assert (a = a1) as ->.
    { rewrite E in Ha. unfold extracted in *. rewrite omap_app, X2 in Ha.
      simpl in Ha. by apply list_elem_of_singleton in Ha. }
    rewrite mean0_length by done. split; [done|].
    rewrite E. apply kinds_not_reported, Forall_app. split; [done|].
    by repeat constructor.
  - destruct Hrest as [-> ->]. exfalso.
    assert (v_mn_counties m' = v_mn_counties m) as Hn.
    { eapply loaded_names; [exact L|].
      destruct (cell14_preserves _ _ _ _ _ H3). by eapply loaded_stable. }
    rewrite Hn in P1. rewrite E in Ha. unfold extracted in *.
    rewrite omap_app, X2 in Ha. simpl in Ha.
    apply list_elem_of_singleton in Ha as ->. by eapply Hmean.
  - destruct Hrest as [-> ->].
    assert (v_mn_counties m' = v_mn_counties m) as Hn.
    { eapply loaded_names; [exact L|].
      destruct (cell14_preserves _ _ _ _ _ H3). by eapply loaded_stable. }
    rewrite Hn in P1, P2. apply pd_Series_error in P2 as [_ ->].
    assert (a = a2) as ->.
    { rewrite E in Ha. unfold extracted in *. rewrite omap_app, X2 in Ha.
      simpl in Ha. apply elem_of_cons in Ha as [->|Ha]; [by edestruct Hmean|].
      by apply list_elem_of_singleton in Ha. }
    rewrite std0_length by done. split; [done|].
    rewrite E. apply kinds_not_reported, Forall_app. split; [done|].
    by repeat constructor.
  - destruct Hrest as [-> ->]. exfalso.
    assert (v_mn_counties m' = v_mn_counties m) as Hn.
    { eapply loaded_names; [exact L|].
      destruct (cell14_preserves _ _ _ _ _ H3). by eapply loaded_stable. }
    rewrite Hn in P1, P2. rewrite E in Ha. unfold extracted in *.
    rewrite omap_app, X2 in Ha. simpl in Ha.
    apply elem_of_cons in Ha as [->|Ha]; [by eapply Hmean|].
    apply list_elem_of_singleton in Ha as ->. by eapply Hstd.
  - exfalso. destruct Hrest as (L3 & r4 & H4 & _). simpl in H4.
    destruct (cell16_kinds _ _ _ _ _ _ H4) as (t4 & E4 & K4).
    destruct (cell16_preserves _ _ _ _ _ _ H4) as [S4 C4].
    assert (v_mn_counties m' = v_mn_counties m) as Hn.
    { eapply loaded_names; [exact L|]. by eapply loaded_stable. }
    rewrite Hn in P1, P2. rewrite E4, E in Ha. unfold extracted in *.
    rewrite !omap_app, X2 in Ha. simpl in Ha.
    rewrite (of_kinds_none [KReport] _ t4) in Ha; [|done|].
    + apply elem_of_cons in Ha as [->|Ha]; [by eapply Hmean|].
      apply list_elem_of_singleton in Ha as ->. by eapply Hstd.
    + intros [c o] Hk. unfold of_kinds in Hk. simpl in *.
      destruct c; try done; by vm_compute in Hk.
Qed.

(** X7. With a county name that occurs twice, a run that gets as far as
    displaying the estimates ends in the ValueError of [plt.scatter], whose
    two arguments differ in length; no error bar is drawn. *)
Theorem duplicate_names_stop_the_plot env w r s m d0 :
  notebook env (init_state w) = (r, s) →
  load_entry m ∈ trace s → ¬ NoDup (v_mn_counties m) →
  (Display d0, Returned RNone) ∈ trace s →
  r = inl (PyExn "ValueError" "x and y must be the same size") ∧
  (∃ xs ys, length xs ≠ length ys ∧
     last (trace s) =
       Some (PltScatter xs ys,
             Raised (PyExn "ValueError" "x and y must be the same size"))) ∧
  bar_positions (trace s) = [].
Proof.
  intros Hr Hm Hdup Hd.
  pose proof (load_entry_inv _ _ _ _ _ Hr Hm) as L.
  destruct (notebook_stages _ _ _ _ Hr)
    as [(e & -> & K)|(m' & d & fit & s2 & r3 & s3 & E2 & L2 & H3 & Hrest)].
  { exfalso. apply (of_kinds_elem _ _ _ K) in Hd. by vm_compute in Hd. }
  destruct (cell14_spec _ _ _ _ _ _ L2 H3)
    as [(e & -> & E)|[(a1 & e & -> & E & P1)|[(a1 & est & e & -> & E & P1)
       |[(a1 & a2 & est & e & -> & E & P1 & P2)
       |[(a1 & a2 & est & se & e & -> & E & P1 & P2)
       |(a1 & a2 & est & se & -> & E & P1 & P2)]]]]];
    try (destruct Hrest as [-> ->]; exfalso; rewrite E, E2 in Hd;
         unfold setup_calls in Hd; not_in_list Hd).
  destruct Hrest as (L3 & r4 & H4 & Hr4). simpl in H4.
  destruct (cell16_preserves _ _ _ _ _ _ H4) as [S4 C4].
  assert (v_mn_counties m' = v_mn_counties m) as Hn.
  { eapply loaded_names; [exact L|]. by eapply loaded_stable. }
  rewrite Hn in P1.
  destruct (cell16_duplicates _ _ _ _ _ _ _ _ P1 Hdup H4)
    as (-> & xs & ys & Hlen & E4).
  split; [done|]. split.
  - exists xs, ys. split; [done|]. by rewrite E4, last_snoc.
  - rewrite E4, E, E2. unfold bar_positions. by rewrite !omap_app.
Qed.

Lemma bars_positions (l : list (Z * F * F)) :
  bar_positions ((λ p, (bar_call p, Returned RNone) : @Call F Fit * @Outcome F Fit) <$> l)
  = (λ p, [p.1.1; p.1.1]) <$> l.
Proof. induction l as [|[[i m] se] l IH]; csimpl; [done|]. by rewrite IH. Qed.

Lemma zip3_positions {B C} (xs : list Z) (ys : list B) (zs : list C) :
  length ys = length xs → length zs = length xs →
  (λ p, [p.1.1; p.1.1]) <$> zip3 xs ys zs = (λ i, [i; i]) <$> xs.
Proof.
  revert ys zs. induction xs as [|x xs IH]; intros [|y ys] [|z zs] Hy Hz;
    simpl in *; try done.
  f_equal. apply IH; lia.
Qed.

(** X8. A run that returns draws one error bar per county, the bar of
    position [i] at x = i, for the positions 0 to n - 1. *)
Theorem one_bar_per_county env w ns s m :
  notebook env (init_state w) = (inr ns, s) → load_entry m ∈ trace s →
  bar_positions (trace s) =
    (λ i, [i; i]) <$> py_range (length (v_mn_counties m)).
Proof.
  intros Hr Hm. pose proof (load_entry_inv _ _ _ _ _ Hr Hm) as L.
  destruct (notebook_ok _ _ _ _ Hr) as (m' & a & a' & ys & ses & E & V & L' & _).
  rewrite (loaded_names _ _ _ L' L). clear Hm L.
  destruct V as (V1 & V2 & Ho & G1 & G2 & Hlen). rewrite Ho in G1, G2.
  destruct (reordered _ _ _ _ _ _ _ V1 V2 G1 G2 Hlen) as (_ & _ & Hal).
  apply Forall2_length in Hal.
  apply pd_Series_inv in V1 as [L1 E1].
  assert (s_len (unpooled_estimates ns) = length (v_mn_counties m')) as Hn.
  { unfold s_len. rewrite E1, length_zip. lia. }
  assert (∀ t1 t2 : list (@Call F Fit * @Outcome F Fit),
            bar_positions (t1 ++ t2) = bar_positions t1 ++ bar_positions t2)
    as Happ by (intros; apply omap_app).
  rewrite E. unfold run_calls, figure_calls.
  rewrite !Happ, bars_positions, zip3_positions.
  - rewrite Hn. simpl. by rewrite app_nil_r.
  - by rewrite py_range_length.
  - rewrite py_range_length, <- Hlen. unfold s_values, s_index in *.
    rewrite !length_fmap in *. done.
Qed.

(** X9. In a run that returns, the x positions given to the scatter plot
    all lie strictly inside the limits the notebook sets for the x axis
    exactly when there are at most 86 counties. *)
Theorem positions_within_limits env w ns s m xs ys o lo hi o' :
  notebook env (init_state w) = (inr ns, s) → load_entry m ∈ trace s →
  (PltScatter xs ys, o) ∈ trace s → (PltXlim lo hi, o') ∈ trace s →
  Forall (λ x, lo < x < hi)%Z xs ↔ length (v_mn_counties m) ≤ 86.
Proof.
  intros Hr Hm Hs Hx. pose proof (load_entry_inv _ _ _ _ _ Hr Hm) as L.
  destruct (notebook_ok _ _ _ _ Hr) as (m' & a & a' & ys' & ses & E & V & L' & _).
  rewrite (loaded_names _ _ _ L' L). clear Hm L.
  destruct V as ([L1 E1]%pd_Series_inv & _).
  assert (s_len (unpooled_estimates ns) = length (v_mn_counties m')) as Hn.
  { unfold s_len. rewrite E1, length_zip. lia. }
  rewrite E in Hs, Hx. unfold run_calls, setup_calls, extract_calls, figure_calls in *.
  not_in_list Hs. not_in_list Hx.
  injection Hs as -> -> ->. injection Hx as -> -> ->. rewrite Hn.
  unfold py_range. rewrite Forall_fmap, Forall_forall. split.
  - intros Hall. destruct (decide (length (v_mn_counties m') ≤ 86)); [done|].
    specialize (Hall 86). simpl in Hall.
    assert (86 ∈ seq 0 (length (v_mn_counties m'))) as Hin
      by (apply elem_of_seq; lia).
    apply Hall in Hin. lia.
  - intros Hle i Hi%elem_of_seq. simpl. lia.
Qed.

(** X10. The data dictionary of a call of the sampler has exactly the four
    names the data block declares; ['x'] and ['y'] are the arrays
    [floor_measure] and [log_radon] of the dataset themselves, not copies. *)
Theorem data_dict_names env w r s kw o :
  notebook env (init_state w) = (r, s) → (PystanStan kw, o) ∈ trace s →
  ∃ d lx ly,
    ("data", ADict d) ∈ kw ∧
    dom d = ({["N"; "county"; "x"; "y"]} : gset string) ∧
    d !! "x" = Some (DRef lx) ∧ clean_data s !! "floor_measure" = Some lx ∧
    d !! "y" = Some (DRef ly) ∧ clean_data s !! "log_radon" = Some ly.
Proof.
  intros Hr Hin.
  destruct (stan_entry_inv _ _ _ _ _ _ Hr Hin) as (m & d & _ & -> & D & _).
  destruct D as (lc1 & lx & ly & lc & -> & _ & _ & _ & Ax & Ay).
  exists (data_dict_of (Z.of_nat (length (v_log_radon m))) lc1 lx ly), lx, ly.
  split; [unfold stan_kwargs; set_solver|].
  split; [|done]. unfold data_dict_of. rewrite !dom_insert_L, dom_empty_L.
  set_solver.
Qed.

(** X11. Nothing is extracted, displayed or drawn without a fit: a call
    that indexes the fit or reports comes only in runs in which the import of
    the dataset and the call of the sampler returned. *)
Theorem reports_need_a_fit env w r s c o :
  notebook env (init_state w) = (r, s) → (c, o) ∈ trace s →
  kind_of c = KExtract ∨ kind_of c = KReport →
  ∃ m kw fit, load_entry m ∈ trace s ∧
              (PystanStan kw, Returned (RFit fit)) ∈ trace s.
Proof.
  intros Hr Hin Hk.
  destruct (notebook_spec _ _ _ _ Hr) as (t1 & t2 & t3 & E & K1 & _ & Hs).
  assert (∀ ks t, Forall (of_kinds ks) t → (c, o) ∈ t →
                  bool_decide (KExtract ∈ ks) = false →
                  bool_decide (KReport ∈ ks) = false → False) as Hno.
  { intros ks t K Hc He Hrep. apply (of_kinds_elem _ _ _ K) in Hc.
    unfold of_kinds in Hc. simpl in Hc.
    destruct Hk as [Hk|Hk]; rewrite Hk in Hc.
    - by rewrite He in Hc.
    - by rewrite Hrep in Hc. }
  rewrite E in Hin |- *.
  apply elem_of_app in Hin as [Hin|Hin]; [by destruct (Hno _ _ K1 Hin)|].
  destruct Hs as [(-> & -> & _)|(m & d & o' & Hm & -> & _ & Ho)];
    [by apply elem_of_nil in Hin|].
  apply elem_of_app in Hin as [Hin|Hin].
  { apply list_elem_of_singleton in Hin. injection Hin as Ec Eo.
    subst c. simpl in Hk. by destruct Hk. }
  destruct o' as [rep|e]; [|subst; by apply elem_of_nil in Hin].
  destruct Ho as (fit & -> & _).
  exists m, (stan_kwargs d), fit. split.
  - apply elem_of_app. by left.
  - apply elem_of_app. right. apply elem_of_app. left.
    by apply list_elem_of_singleton.
Qed.

(** X12. What a run that returns displays are the first five estimates in
    the order of the dataset (all of them when there are fewer than five
    counties), not in the sorted order of the figure. *)
Theorem display_shows_first_five env w ns s m d o :
  notebook env (init_state w) = (inr ns, s) → load_entry m ∈ trace s →
  (Display d, o) ∈ trace s →
  s_index d = take 5 (v_mn_counties m) ∧
  s_items d = take 5 (s_items (unpooled_estimates ns)) ∧
  s_len d = 5 `min` length (v_mn_counties m).
Proof.
  intros Hr Hm Hd. pose proof (load_entry_inv _ _ _ _ _ Hr Hm) as L.
  destruct (notebook_ok _ _ _ _ Hr) as (m' & a & a' & ys' & ses & E & V & L' & _).
  destruct V as ([L1 E1]%pd_Series_inv & _).
  rewrite <- (loaded_names _ _ _ L L'). clear Hm L.
  rewrite E in Hd. unfold run_calls, setup_calls, extract_calls, figure_calls in *.
  not_in_list Hd. injection Hd as -> ->.
  unfold s_index, s_len, head. cbn [s_items]. rewrite E1.
  rewrite fmap_take, fst_zip by lia. split; [done|]. split; [done|].
  rewrite length_take, length_zip. lia.
Qed.

End Stops.

(** ** The properties on the example *)

Global Instance Z_float_order : Float64Order Z.
Proof.
  split.
  - intros x y _ _. simpl. destruct (Z.leb_spec x y); [by left|right].
    apply Z.leb_le. lia.
  - intros x y z. simpl. rewrite !Z.leb_le. lia.
Qed.

(** A handler hides what the notebook lets through: with [try] around the
    sampler the run returns although the call raised. *)
Remark py_try_swallows :
  ¬ propagates (py_try (pystan_stan failing_env []) (λ _, py_ret 0)).
Proof.
  intros Hp.
  destruct (Hp (init_state ()) (inr 0) _ eq_refl) as (t & E & Ft).
  simpl in E, Ft. subst t. apply Forall_cons in Ft as [[rep Hrep] _]. done.
Qed.

(** An update in place is what [preserves] excludes. *)
Remark store_changes :
  ¬ preserves (W:=unit) (Fit:=nat) (store 1%positive (IntArray (F:=Z) [1%Z])).
Proof.
  intros Hp.
  destruct (Hp (mk_PyState {[1%positive := IntArray [0%Z]]} ∅ [] ()) _ _ eq_refl)
    as [Hsub _].
  simpl in Hsub.
  pose proof (lookup_weaken _ _ 1%positive (IntArray [0%Z]) (lookup_singleton_eq _ _) Hsub) as Hl.
  rewrite lookup_insert_eq in Hl. done.
Qed.

(** Finds an entry in a log that is written out. *)
Ltac in_log :=
  vm_compute;
  repeat first [apply list_elem_of_here | apply list_elem_of_further].


Lemma estimates_are_column_summaries_witness :
  ∃ ns s, notebook example_env (init_state ()) = (inr ns, s) ∧
  load_entry example_data ∈ trace s ∧
  extracted (trace s) = [example_draws; example_draws] ∧
  rectangular example_draws ∧ 1 < length (v_mn_counties example_data) ∧
  ∃ name,
    v_mn_counties example_data !! 1 = Some name ∧
    s_items (unpooled_estimates ns) !! 1 =
      Some (name, mean_of (nrows example_draws) (column 1 example_draws)) ∧
    s_items (unpooled_se ns) !! 1 =
      Some (name, std_of (nrows example_draws) (column 1 example_draws)) ∧
    (Display (head (unpooled_estimates ns)), Returned RNone) ∈ trace s.
Proof.
  eexists _, _. split; [vm_compute; reflexivity|].
  split; [in_log|]. split; [vm_compute; reflexivity|].
  split; [repeat constructor|]. split; [simpl; lia|].
  apply (estimates_are_column_summaries example_env ());
    [vm_compute; reflexivity | in_log | vm_compute; reflexivity
    | repeat constructor | repeat constructor | simpl; lia].
Defined.

Lemma model_code_text_witness :
  ∃ r s kw o, notebook failing_env (init_state ()) = (r, s) ∧
  (PystanStan kw, o) ∈ trace s ∧
  kw !! 0 = Some ("model_code",
                  AStr (((unpooled_data +:+ unpooled_parameters) +:+
                         unpooled_transformed_parameters) +:+ unpooled_model)).
Proof.
  eexists _, _, _, _. split; [vm_compute; reflexivity|].
  split; [in_log|].
  refine (proj1 (model_code_text failing_env () _ _ _ _ _ _));
    [vm_compute; reflexivity|in_log].
Defined.


Lemma data_dict_consistent_witness :
  ∃ r s kw o, notebook example_env (init_state ()) = (r, s) ∧
  (PystanStan kw, o) ∈ trace s ∧
  Forall (λ c, 0 ≤ c ≤ 84)%Z (v_county example_data) ∧
  ∃ m d ly lc,
    load_entry m ∈ trace s ∧ ("data", ADict d) ∈ kw ∧
    d !! "N" = Some (DInt (Z.of_nat (length (v_log_radon m)))) ∧
    d !! "y" = Some (DRef ly) ∧
    heap s !! ly = Some (FloatArray (v_log_radon m)) ∧
    d !! "county" = Some (DRef lc) ∧
    heap s !! lc = Some (IntArray (stan_county (v_county m))) ∧
    (∀ i c, v_county m !! i = Some c →
            stan_county (v_county m) !! i = Some (wrap64 (c + 1))) ∧
    (Forall (λ c, 0 ≤ c ≤ 84)%Z (v_county m) →
     stan_county (v_county m) = (λ c, c + 1)%Z <$> v_county m ∧
     county_declared (stan_county (v_county m)) ∧
     ∀ (beta : Z) (a x : list Z) i idx,
       a_declared a →
       y_hat_at beta a x (stan_county (v_county m)) i ≠ inl (OutOfRange "a" idx)).
Proof.
  eexists _, _, _, _. split; [vm_compute; reflexivity|].
  split; [in_log|]. split; [repeat constructor; lia|].
  eapply (data_dict_consistent example_env ()); [vm_compute; reflexivity|in_log].
Defined.


Lemma plot_sorted_and_aligned_witness :
  ∃ ns s, notebook example_env (init_state ()) = (inr ns, s) ∧
  ∃ ys ses t,
    trace s = t ++ figure_calls (s_len (unpooled_estimates ns)) ys ses ∧
    StronglySorted f_le (filter is_number (s_values ys)) ∧
    (∀ i k x y, i < k → s_values ys !! i = Some x → s_values ys !! k = Some y →
                is_number y → is_number x) ∧
    s_items ys ≡ₚ s_items (unpooled_estimates ns) ∧
    NoDup (s_index (unpooled_estimates ns)) ∧
    ∀ i l mi, s_items ys !! i = Some (l, mi) →
      ∃ sei j,
        s_items ses !! i = Some (l, sei) ∧
        s_items (unpooled_estimates ns) !! j = Some (l, mi) ∧
        s_items (unpooled_se ns) !! j = Some (l, sei) ∧
        (PltPlot [Z.of_nat i; Z.of_nat i] [f_sub mi sei; f_add mi sei] "b-",
         Returned RNone) ∈ trace s.
Proof.
  eexists _, _. split; [vm_compute; reflexivity|].
  apply (plot_sorted_and_aligned (Float64Order0:=Z_float_order) example_env ()).
  vm_compute. reflexivity.
Defined.

Lemma sampler_called_once_witness :
  ∃ r s, notebook example_env (init_state ()) = (r, s) ∧
  length (stan_calls (trace s)) ≤ 1 ∧
  ∀ ns, r = inr ns → length (stan_calls (trace s)) = 1.
Proof.
  eexists _, _. split; [vm_compute; reflexivity|].
  split.
  - refine (proj1 (sampler_called_once example_env () _ _ _)).
    vm_compute. reflexivity.
  - intros ns Hns.
    refine (proj1 (proj2 (proj2 (proj2
              (sampler_called_once example_env () _ _ _))) ns Hns)).
    vm_compute. reflexivity.
Defined.

Lemma summaries_deterministic_witness :
  ∃ ns1 s1 ns2 s2,
    notebook example_env (init_state ()) = (inr ns1, s1) ∧
    notebook counting_env (init_state 0) = (inr ns2, s2) ∧
    extracted (trace s1) = extracted (trace s2) ∧
    county_index (trace s1) = county_index (trace s2) ∧
    unpooled_estimates ns1 = unpooled_estimates ns2 ∧
    unpooled_se ns1 = unpooled_se ns2 ∧
    order ns1 = order ns2 ∧
    reported (trace s1) = reported (trace s2).
Proof.
  eexists _, _, _, _. split; [vm_compute; reflexivity|].
  split; [vm_compute; reflexivity|].
  split; [vm_compute; reflexivity|]. split; [vm_compute; reflexivity|].
  apply (summaries_deterministic example_env counting_env () 0);
    vm_compute; reflexivity.
Defined.

Lemma label_lookup_never_fails_witness :
  s_index (mk_Series [("A", 1); ("B", 2)]%Z) = s_index (mk_Series [("A", 3); ("B", 1)]%Z) ∧
  ∃ ys ses,
    getitem_labels (mk_Series [("A", 3); ("B", 1)]%Z)
      (s_index (sort_values (mk_Series [("A", 3); ("B", 1)]%Z))) = inr ys ∧
    getitem_labels (mk_Series [("A", 1); ("B", 2)]%Z)
      (s_index (sort_values (mk_Series [("A", 3); ("B", 1)]%Z))) = inr ses.
Proof.
  split; [reflexivity|]. apply label_lookup_never_fails. reflexivity.
Defined.

Lemma reordered_length_iff_distinct_witness :
  ∃ est ys,
    pd_Series [3; 1]%Z ["A"; "B"] = inr est ∧
    getitem_labels est (s_index (sort_values est)) = inr ys ∧
    (s_len ys = s_len est ↔ NoDup ["A"; "B"]).
Proof.
  eexists _, _. split; [vm_compute; reflexivity|].
  split; [vm_compute; reflexivity|].
  apply (reordered_length_iff_distinct ["A"; "B"] [3; 1]%Z);
    vm_compute; reflexivity.
Defined.

Lemma y_hat_reads_the_county_witness :
  [1; 5]%Z !! 0 = Some 1%Z ∧ [1; 0]%Z !! 0 = Some 1%Z ∧
  (0 ≤ 1 < 2 ^ 63 - 1)%Z ∧ [10; 20]%Z !! Z.to_nat 1 = Some 20%Z ∧
  y_hat_at 2%Z [10; 20]%Z [1; 5]%Z (stan_county [1; 0]%Z) (Z.of_nat 1) =
    inr (f_add (f_mul 2 1) 20)%Z.
Proof.
  split; [reflexivity|]. split; [reflexivity|]. split; [lia|].
  split; [reflexivity|].
  apply (y_hat_reads_the_county 2%Z [10; 20]%Z [1; 5]%Z [1; 0]%Z 0 1%Z 1%Z 20%Z);
    [reflexivity|reflexivity|lia|reflexivity].
Defined.

Lemma y_hat_total_witness :
  length [1; 84]%Z = length [1; 5]%Z ∧
  Forall (λ c, 0 ≤ c ≤ 84)%Z [1; 84]%Z ∧ a_declared (replicate 85 0%Z) ∧
  ∃ ys, y_hat 2%Z (replicate 85 0%Z) [1; 5]%Z (stan_county [1; 84]%Z)
          (Z.of_nat (length [1; 5]%Z)) = inr ys ∧
        length ys = length [1; 5]%Z ∧
        ∀ i xi c, [1; 5]%Z !! i = Some xi → [1; 84]%Z !! i = Some c →
          ∃ ai, replicate 85 0%Z !! Z.to_nat c = Some ai ∧
                ys !! i = Some (f_add (f_mul 2%Z xi) ai).
Proof.
  split; [reflexivity|]. split; [repeat constructor; lia|].
  split; [reflexivity|].
  apply (y_hat_total 2%Z (replicate 85 0%Z) [1; 5]%Z [1; 84]%Z);
    [reflexivity|repeat constructor; lia|reflexivity].
Defined.

Lemma county_declared_iff_witness :
  Forall (λ c, - 2 ^ 63 ≤ c < 2 ^ 63 - 1)%Z [0; 84]%Z ∧
  (county_declared (stan_county [0; 84]%Z) ↔ Forall (λ c, 0 ≤ c ≤ 84)%Z [0; 84]%Z).
Proof.
  split; [repeat constructor; lia|].
  apply county_declared_iff. repeat constructor; lia.
Defined.


Lemma accepted_data_no_index_error_witness :
  ∃ r, transformed_parameters 2%Z (replicate 85 0%Z) 2 [1; 85]%Z [1; 5]%Z [2; 3]%Z
         = inr r ∧
       a_declared (replicate 85 0%Z) ∧
       ∃ ys, r = inr ys ∧ Z.of_nat (length ys) = 2%Z.
Proof.
  eexists. split; [vm_compute; reflexivity|]. split; [reflexivity|].
  apply (accepted_data_no_index_error 2%Z (replicate 85 0%Z) [1; 5]%Z [2; 3]%Z
           2 [1; 85]%Z); [vm_compute; reflexivity|reflexivity].
Defined.

Lemma length_mismatch_raises_witness :
  ∃ r s, notebook narrow_env (init_state ()) = (r, s) ∧
  load_entry example_data ∈ trace s ∧ narrow_draws ∈ extracted (trace s) ∧
  rectangular narrow_draws ∧
  ncols narrow_draws ≠ length (v_mn_counties example_data) ∧
  r = inl (PyExn "ValueError"
             "Length of values (2) does not match length of index (3)") ∧
  reported (trace s) = [].
Proof.
  eexists _, _. split; [vm_compute; reflexivity|].
  split; [in_log|]. split; [in_log|]. split; [repeat constructor|].
  split; [simpl; lia|].
  apply (length_mismatch_raises narrow_env () _ _ example_data narrow_draws);
    [vm_compute; reflexivity | in_log | in_log | repeat constructor | simpl; lia].
Defined.

Lemma duplicate_names_stop_the_plot_witness :
  ∃ r s d0, notebook twin_env (init_state ()) = (r, s) ∧
  load_entry twin_data ∈ trace s ∧ ¬ NoDup (v_mn_counties twin_data) ∧
  (Display d0, Returned RNone) ∈ trace s ∧
  r = inl (PyExn "ValueError" "x and y must be the same size") ∧
  (∃ xs ys, length xs ≠ length ys ∧
     last (trace s) =
       Some (PltScatter xs ys,
             Raised (PyExn "ValueError" "x and y must be the same size"))) ∧
  bar_positions (trace s) = [].
Proof.
  assert (¬ NoDup (v_mn_counties twin_data)) as Hdup.
  { intros Hnd. apply NoDup_cons in Hnd as [Hin _]. apply Hin.
    simpl. do 1 apply list_elem_of_further. apply list_elem_of_here. }
  eexists _, _, _. split; [vm_compute; reflexivity|].
  split; [in_log|]. split; [exact Hdup|]. split; [in_log|].
  eapply (duplicate_names_stop_the_plot twin_env () _ _ twin_data);
    [vm_compute; reflexivity | in_log | exact Hdup | in_log].
Defined.

Lemma one_bar_per_county_witness :
  ∃ ns s, notebook example_env (init_state ()) = (inr ns, s) ∧
  load_entry example_data ∈ trace s ∧
  bar_positions (trace s) =
    (λ i, [i; i]) <$> py_range (length (v_mn_counties example_data)).
Proof.
  eexists _, _. split; [vm_compute; reflexivity|]. split; [in_log|].
  eapply (one_bar_per_county example_env ()); [vm_compute; reflexivity|in_log].
Defined.

Lemma positions_within_limits_witness :
  ∃ ns s xs ys o lo hi o',
  notebook example_env (init_state ()) = (inr ns, s) ∧
  load_entry example_data ∈ trace s ∧
  (PltScatter xs ys, o) ∈ trace s ∧ (PltXlim lo hi, o') ∈ trace s ∧
  (Forall (λ x, lo < x < hi)%Z xs ↔ length (v_mn_counties example_data) ≤ 86).
Proof.
  eexists _, _, _, _, _, _, _, _. split; [vm_compute; reflexivity|].
  split; [in_log|]. split; [in_log|]. split; [in_log|].
  eapply (positions_within_limits example_env ());
    [vm_compute; reflexivity | in_log | in_log | in_log].
Defined.

Lemma data_dict_names_witness :
  ∃ r s kw o, notebook failing_env (init_state ()) = (r, s) ∧
  (PystanStan kw, o) ∈ trace s ∧
  ∃ d lx ly,
    ("data", ADict d) ∈ kw ∧
    dom d = ({["N"; "county"; "x"; "y"]} : gset string) ∧
    d !! "x" = Some (DRef lx) ∧ clean_data s !! "floor_measure" = Some lx ∧
    d !! "y" = Some (DRef ly) ∧ clean_data s !! "log_radon" = Some ly.
Proof.
  eexists _, _, _, _. split; [vm_compute; reflexivity|]. split; [in_log|].
  eapply (data_dict_names failing_env ()); [vm_compute; reflexivity|in_log].
Defined.

Lemma reports_need_a_fit_witness :
  ∃ r s d, notebook example_env (init_state ()) = (r, s) ∧
  (Display d, Returned RNone) ∈ trace s ∧
  ∃ m kw fit, load_entry m ∈ trace s ∧
              (PystanStan kw, Returned (RFit fit)) ∈ trace s.
Proof.
  eexists _, _, _. split; [vm_compute; reflexivity|]. split; [in_log|].
  eapply (reports_need_a_fit example_env () _ _ (Display _) (Returned RNone));
    [vm_compute; reflexivity | in_log | right; reflexivity].
Defined.

Lemma display_shows_first_five_witness :
  ∃ ns s d o, notebook example_env (init_state ()) = (inr ns, s) ∧
  load_entry example_data ∈ trace s ∧ (Display d, o) ∈ trace s ∧
  s_index d = take 5 (v_mn_counties example_data) ∧
  s_items d = take 5 (s_items (unpooled_estimates ns)) ∧
  s_len d = 5 `min` length (v_mn_counties example_data).
Proof.
  eexists _, _, _, _. split; [vm_compute; reflexivity|]. split; [in_log|].
  split; [in_log|].
  eapply (display_shows_first_five example_env ());
    [vm_compute; reflexivity | in_log | in_log].
Defined.
